(** * AdGuard DNS tools: authenticated transport, query-log filter and
      whitelist mutator

    A shallow embedding of [src/mastra/tools/adguard-tools.ts].  The
    module-level variable [currentAccessToken], the network behind [fetch],
    the console and the clock are threaded as an explicit world; a thrown
    [Error] and a rejected promise are a [Thrown] completion. *)

From Stdlib Require Import ZArith String Ascii List Bool DecimalString.
From stdpp Require Import base option list gmap strings fin_maps.


(** ** JavaScript values the tools handle *)

(** [`${n}`] for an integral JS number: its decimal digits, [-] first when
    negative. *)
Definition string_of_Z (z : Z) : string := NilZero.string_of_int (Z.to_int z).

(** [`${a.length}`]. *)
Definition string_of_nat (n : nat) : string := string_of_Z (Z.of_nat n).

(** [Array.prototype.includes] on an array of strings: a scan from index 0
    comparing with SameValueZero, which on strings is equality of their
    contents. *)
Fixpoint includes (a : list string) (x : string) : bool :=
  match a with
  | [] => false
  | y :: a' => if String.eqb y x then true else includes a' x
  end.

(** [Array.prototype.join] on an array of strings. *)
Fixpoint join (sep : string) (a : list string) : string :=
  match a with
  | [] => ""
  | [x] => x
  | x :: a' => x +:+ sep +:+ join sep a'
  end.

(** [!s] for [s : string | undefined]: undefined and the empty string are
    falsy. *)
Definition falsy (s : option string) : bool :=
  match s with
  | None => true
  | Some x => String.eqb x ""
  end.

(** [o === lit] where [o] may be undefined. *)
Definition strict_eq (o : option string) (lit : string) : bool :=
  match o with
  | Some x => String.eqb x lit
  | None => false
  end.

(** [{ ...base, ...over }]: the keys of [over] win. *)
Definition spread (base over : gmap string string) : gmap string string :=
  over ∪ base.

(** ** The interfaces of the source *)

Record FilteringInfo := {
  filtering_status : option string;
  filter_rule : option string;
  filter_id : option string;
}.

Record QueryLogItem := {
  domain : string;
  time_iso : string;
  time_millis : Z;
  filtering_info : option FilteringInfo;
  device_id : option string;
  dns_request_type : option string;
}.

Record Pages := { current : Z; total : Z }.

Record QueryLogResponse := {
  items : list QueryLogItem;
  pages : Pages;
}.

Record UserRulesSettings := {
  enabled : bool;
  rules : list string;
  rules_count : Z;
}.

Record DNSServerSettings := {
  user_rules_settings : UserRulesSettings;
}.

Record DNSServer := { settings : DNSServerSettings }.

Record TokenResponse := {
  access_token : string;
  refresh_token : option string;
}.

(** ** Requests and responses *)

(** The text [JSON.stringify] produces, written as the object it was given:
    the two objects this file serialises. *)
Inductive JsonText :=
| RefreshRequest (refresh_token : string)
| SettingsUpdate (enabled : bool) (rules : list string).

(** [HeadersInit]: a plain object, a [Headers] instance holding entries, or
    an array of name-value pairs. *)
Inductive HeadersInit :=
| HeadersObject (o : gmap string string)
| HeadersInstance (entries : list (string * string))
| HeaderPairs (entries : list (string * string)).

(** The properties an array of pairs has for [{ ...a }]: its indices, each
    holding a pair, written here as the string [fetch] reads it as, the two
    members joined by a comma. *)
Fixpoint indexProperties (i : nat) (entries : list (string * string))
    : gmap string string :=
  match entries with
  | [] => ∅
  | (name, value) :: entries' =>
      <[ string_of_nat i := name +:+ "," +:+ value ]>
        (indexProperties (S i) entries')
  end.

(** What [{ ...h }] copies from [h : HeadersInit | undefined], its own
    enumerable properties: every header of a plain object, nothing of a
    [Headers] instance (its entries are no properties) or of [undefined],
    the indices of an array. *)
Definition ownProperties (h : option HeadersInit) : gmap string string :=
  match h with
  | None => ∅
  | Some (HeadersObject o) => o
  | Some (HeadersInstance _) => ∅
  | Some (HeaderPairs entries) => indexProperties 0 entries
  end.

(** The headers a caller supplies with [h], as name-value pairs. *)
Definition suppliedHeaders (h : option HeadersInit) : list (string * string) :=
  match h with
  | None => []
  | Some (HeadersObject o) => map_to_list o
  | Some (HeadersInstance entries) => entries
  | Some (HeaderPairs entries) => entries
  end.

(** [RequestInit], with the three members the file sets. *)
Record RequestInit := {
  method : option string;
  headers : option HeadersInit;
  body : option JsonText;
}.

(** [options: RequestInit = {}]. *)
Definition noOptions : RequestInit :=
  {| method := None; headers := None; body := None |}.

(** One call [fetch(url, init)]. *)
Record Request := { url : string; init : RequestInit }.

(** What a response body parses to.  The casts [as TokenResponse],
    [as QueryLogResponse] and [as { settings }] are taken at their type: a
    body is one of the three declared shapes, or is not JSON at all. *)
Inductive Payload :=
| TokenJson (t : TokenResponse)
| QueryLogJson (q : QueryLogResponse)
| DNSServerJson (d : DNSServer)
| NotJson.

Record Response := {
  status : Z;
  statusText : string;
  payload : Payload;
}.

(** [response.ok]: the status is in the range 200-299. *)
Definition ok (r : Response) : bool :=
  (200 <=? status r)%Z && (status r <=? 299)%Z.

(** The promise [fetch] returns either resolves to a response, whatever its
    status, or rejects (network failure). *)
Inductive FetchOutcome :=
| Responded (r : Response)
| Rejected (reason : string).

(** ** Completions and the world *)

Inductive exn :=
| Error (message : string)
| FetchRejected (reason : string)
| JsonRejected.

Inductive Completion (A : Type) :=
| Returned (a : A)
| Thrown (e : exn).
Arguments Returned {A} a.
Arguments Thrown {A} e.

(** The module-level constants read from [process.env] when the module is
    loaded. *)
Record Env := {
  ADGUARD_DNS_SERVER_ID : option string;
  ADGUARD_REFRESH_TOKEN : option string;
}.

(** [currentAccessToken] is the module's only mutable variable; [provider]
    is the state of whatever answers [fetch]; [requests] and [console]
    record, oldest first, the calls to [fetch] and to [console.log]. *)
Record World (Srv : Type) := {
  currentAccessToken : string;
  provider : Srv;
  requests : list Request;
  console : list string;
  clock : Z;
}.
Arguments currentAccessToken {Srv} w.
Arguments provider {Srv} w.
Arguments requests {Srv} w.
Arguments console {Srv} w.
Arguments clock {Srv} w.

Definition ADGUARD_API_BASE : string := "https://api.adguard-dns.io".

(** The tools' output objects. *)
Record BlockedDomain := {
  bd_domain : string;
  bd_blocked_at : string;
  bd_filter_rule : option string;
  bd_filter_id : option string;
}.

Record QueryLogOutput := {
  blocked_domains : list BlockedDomain;
  total_queries : nat;
}.

Record UnblockOutput := {
  success : bool;
  message : string;
  rules_added : list string;
  already_whitelisted : list string;
}.

Section Tools.

Context {Srv : Type}.

(** How the network answers a request, and what it becomes. *)
Variable network : Srv -> Request -> FetchOutcome * Srv.
Variable env : Env.

Definition M (A : Type) : Type := World Srv -> Completion A * World Srv.

Definition ret {A} (a : A) : M A := fun w => (Returned a, w).

Definition throw {A} (e : exn) : M A := fun w => (Thrown e, w).

Definition bind {A B} (m : M A) (k : A -> M B) : M B :=
  fun w =>
    match m w with
    | (Returned a, w') => k a w'
    | (Thrown e, w') => (Thrown e, w')
    end.

Notation "x <- m ;; k" := (bind m (fun x => k))
  (at level 100, m at next level, right associativity).
Notation "m ;;; k" := (bind m (fun _ => k))
  (at level 100, right associativity).

Definition get_currentAccessToken : M string :=
  fun w => (Returned (currentAccessToken w), w).

Definition set_currentAccessToken (t : string) : M unit :=
  fun w =>
    (Returned tt,
     {| currentAccessToken := t; provider := provider w;
        requests := requests w; console := console w; clock := clock w |}).

Definition console_log (line : string) : M unit :=
  fun w =>
    (Returned tt,
     {| currentAccessToken := currentAccessToken w; provider := provider w;
        requests := requests w; console := console w ++ [line];
        clock := clock w |}).

Definition Date_now : M Z := fun w => (Returned (clock w), w).

(** The world once [req] has been sent and the network has moved to [s']. *)
Definition after_fetch (w : World Srv) (req : Request) (s' : Srv) : World Srv :=
  {| currentAccessToken := currentAccessToken w; provider := s';
     requests := requests w ++ [req]; console := console w;
     clock := clock w |}.

Definition fetch (u : string) (i : RequestInit) : M Response :=
  fun w =>
    let req := {| url := u; init := i |} in
    let (out, s') := network (provider w) req in
    match out with
    | Responded r => (Returned r, after_fetch w req s')
    | Rejected reason => (Thrown (FetchRejected reason), after_fetch w req s')
    end.

(** [await response.json() as T] for the three interfaces. *)
Definition json_TokenResponse (r : Response) : M TokenResponse :=
  match payload r with TokenJson t => ret t | _ => throw JsonRejected end.

Definition json_QueryLogResponse (r : Response) : M QueryLogResponse :=
  match payload r with QueryLogJson q => ret q | _ => throw JsonRejected end.

Definition json_DNSServer (r : Response) : M DNSServer :=
  match payload r with DNSServerJson d => ret d | _ => throw JsonRejected end.

(** *** refreshAccessToken *)

Definition refreshInit (rt : string) : RequestInit :=
  {| method := Some "POST";
     headers := Some (HeadersObject {[ "Content-Type" := "application/json" ]});
     body := Some (RefreshRequest rt) |}.

Definition oauthTokenUrl : string := ADGUARD_API_BASE +:+ "/oapi/v1/oauth_token".

Definition refreshRequest (rt : string) : Request :=
  {| url := oauthTokenUrl; init := refreshInit rt |}.

Definition refreshAccessToken : M string :=
  if falsy (ADGUARD_REFRESH_TOKEN env) then
    throw (Error "ADGUARD_REFRESH_TOKEN environment variable is not set. Cannot refresh token.")
  else
    response <- fetch oauthTokenUrl
                      (refreshInit (default "" (ADGUARD_REFRESH_TOKEN env))) ;;
    if negb (ok response) then
      throw (Error ("Failed to refresh token: " +:+ string_of_Z (status response)
                      +:+ " " +:+ statusText response))
    else
      data <- json_TokenResponse response ;;
      set_currentAccessToken (access_token data) ;;;
      console_log "AdGuard API token refreshed successfully" ;;;
      ret (access_token data).

(** *** callAdGuardAPI *)

Definition bearer (token : string) : string := "Bearer " +:+ token.

(** The [requestOptions] object: [options] spread, then the merged
    headers. *)
Definition withAuthorization (options : RequestInit) (token : string)
    : RequestInit :=
  {| method := method options;
     body := body options;
     headers :=
       Some (HeadersObject
               (<[ "Authorization" := bearer token ]>
                  (spread {[ "Content-Type" := "application/json" ]}
                          (ownProperties (headers options))))) |}.

(** [requestOptions.headers = { ...requestOptions.headers, Authorization }]. *)
Definition retryWith (requestOptions : RequestInit) (newToken : string)
    : RequestInit :=
  {| method := method requestOptions;
     body := body requestOptions;
     headers :=
       Some (HeadersObject
               (<[ "Authorization" := bearer newToken ]>
                  (ownProperties (headers requestOptions)))) |}.

Definition firstRequest (w : World Srv) (u : string) (options : RequestInit)
    : Request :=
  {| url := u; init := withAuthorization options (currentAccessToken w) |}.

Definition retryRequest (w : World Srv) (u : string) (options : RequestInit)
    (newToken : string) : Request :=
  {| url := u;
     init := retryWith (withAuthorization options (currentAccessToken w))
                       newToken |}.

Definition callAdGuardAPI (u : string) (options : RequestInit) : M Response :=
  token <- get_currentAccessToken ;;
  if String.eqb token "" then
    throw (Error "ADGUARD_API_TOKEN environment variable is not set")
  else
    let requestOptions := withAuthorization options token in
    response <- fetch u requestOptions ;;
    if (status response =? 401)%Z then
      console_log "Token expired, refreshing..." ;;;
      newToken <- refreshAccessToken ;;
      fetch u (retryWith requestOptions newToken)
    else
      ret response.

(** *** getQueryLogTool *)

(** The callback of [data.items.filter]. *)
Definition isBlocked (item : QueryLogItem) : bool :=
  strict_eq (filtering_info item ≫= filtering_status) "REQUEST_BLOCKED"
  || strict_eq (filtering_info item ≫= filtering_status) "RESPONSE_BLOCKED".

(** The callback of [.map]. *)
Definition toBlockedDomain (item : QueryLogItem) : BlockedDomain :=
  {| bd_domain := domain item;
     bd_blocked_at := time_iso item;
     bd_filter_rule := filtering_info item ≫= filter_rule;
     bd_filter_id := filtering_info item ≫= filter_id |}.

Definition queryLogUrl (timeFromMillis timeToMillis : Z) : string :=
  ADGUARD_API_BASE +:+ "/oapi/v1/query_log?time_from_millis="
    +:+ string_of_Z timeFromMillis +:+ "&time_to_millis="
    +:+ string_of_Z timeToMillis +:+ "&limit=200".

(** [execute] of [getQueryLogTool]; [minutes] is [context.minutes], taken
    integral.  The bounds of the window are computed exactly and written in
    decimal, which is what the code's numbers give as long as they stay
    among the integers a double holds exactly; the digits the code writes
    beyond that are not modelled. *)
Definition getQueryLogTool (minutes : Z) : M QueryLogOutput :=
  now <- Date_now ;;
  let timeFromMillis := (now - minutes * 60 * 1000)%Z in
  let timeToMillis := now in
  response <- callAdGuardAPI (queryLogUrl timeFromMillis timeToMillis) noOptions ;;
  if negb (ok response) then
    throw (Error ("AdGuard API error: " +:+ string_of_Z (status response)
                    +:+ " " +:+ statusText response))
  else
    data <- json_QueryLogResponse response ;;
    let blockedDomains :=
      map toBlockedDomain (List.filter isBlocked (items data)) in
    ret {| blocked_domains := blockedDomains;
           total_queries := length (items data) |}.

(** *** unblockDomainTool *)

Definition whitelistRule (domain : string) : string :=
  "@@||" +:+ domain +:+ "^".

(** One turn of the [for ... of context.domains] loop on the pair
    ([newRules], [alreadyWhitelisted]); [push] appends at the end. *)
Definition classify (currentRules : list string)
    (acc : list string * list string) (domain : string)
    : list string * list string :=
  if includes currentRules (whitelistRule domain) then
    (acc.1, acc.2 ++ [domain])
  else
    (acc.1 ++ [whitelistRule domain], acc.2).

(** The whole loop, from two empty arrays. *)
Definition classifyAll (currentRules domains : list string)
    : list string * list string :=
  fold_left (classify currentRules) domains ([], []).

Definition dnsServerUrl : string :=
  ADGUARD_API_BASE +:+ "/oapi/v1/dns_servers/"
    +:+ default "" (ADGUARD_DNS_SERVER_ID env).

Definition settingsUrl : string := dnsServerUrl +:+ "/settings".

Definition putInit (flag : bool) (updatedRules : list string) : RequestInit :=
  {| method := Some "PUT";
     headers := None;
     body := Some (SettingsUpdate flag updatedRules) |}.

(** [execute] of [unblockDomainTool]; [domains] is [context.domains]. *)
Definition unblockDomainTool (domains : list string) : M UnblockOutput :=
  if falsy (ADGUARD_DNS_SERVER_ID env) then
    throw (Error "ADGUARD_DNS_SERVER_ID environment variable is not set")
  else
    getResponse <- callAdGuardAPI dnsServerUrl noOptions ;;
    if negb (ok getResponse) then
      throw (Error ("Failed to get DNS server: "
                      +:+ string_of_Z (status getResponse)
                      +:+ " " +:+ statusText getResponse))
    else
      dnsServer <- json_DNSServer getResponse ;;
      let currentSettings := settings dnsServer in
      let currentRules := rules (user_rules_settings currentSettings) in
      let newRules := (classifyAll currentRules domains).1 in
      let alreadyWhitelisted := (classifyAll currentRules domains).2 in
      if (length newRules =? 0)%nat then
        ret {| success := true;
               message := "All " +:+ string_of_nat (length domains)
                            +:+ " domain(s) are already whitelisted";
               rules_added := [];
               already_whitelisted := alreadyWhitelisted |}
      else
        let updatedRules := currentRules ++ newRules in
        putResponse <-
          callAdGuardAPI settingsUrl
            (putInit (enabled (user_rules_settings currentSettings))
                     updatedRules) ;;
        if negb (ok putResponse) then
          throw (Error ("Failed to update settings: "
                          +:+ string_of_Z (status putResponse)
                          +:+ " " +:+ statusText putResponse))
        else
          let newDomains :=
            List.filter (fun d => negb (includes alreadyWhitelisted d))
                        domains in
          ret {| success := true;
                 message := "Successfully added "
                              +:+ string_of_nat (length newRules)
                              +:+ " whitelist rule(s) for: "
                              +:+ join ", " newDomains;
                 rules_added := newRules;
                 already_whitelisted := alreadyWhitelisted |}.

(** *** Vocabulary of the statements *)

(** What [callAdGuardAPI u options] may send: requests for [u] carrying the
    method and body of [options], and the token exchange. *)
Definition sentBy (u : string) (options : RequestInit) (r : Request) : Prop :=
  (url r = u /\ method (init r) = method options
   /\ body (init r) = body options)
  \/ (url r = oauthTokenUrl /\ method (init r) = Some "POST").

(** The headers object of a request for a caller who passed [caller]:
    [Authorization] is the bearer of [token]; every other header of the
    caller is kept; below them lies only the default [Content-Type]. *)
Definition mergedHeaders (caller : gmap string string) (token : string)
    (h : gmap string string) : Prop :=
  h !! "Authorization" = Some ("Bearer " +:+ token)
  /\ (forall k v, k <> "Authorization" -> caller !! k = Some v ->
                  h !! k = Some v)
  /\ (forall k, k <> "Authorization" -> caller !! k = None ->
                h !! k
                = ({[ "Content-Type" := "application/json" ]}
                     : gmap string string) !! k).

(** The configuration read of [unblockDomainTool] from [w]: the server is
    named, the transport returns [g] in world [w1], and [g] is a success
    carrying the server object [d]. *)
Definition readReturns (w : World Srv) (g : Response) (w1 : World Srv)
    (d : DNSServer) : Prop :=
  falsy (ADGUARD_DNS_SERVER_ID env) = false
  /\ callAdGuardAPI dnsServerUrl noOptions w
     = (Returned g, w1)
  /\ ok g = true
  /\ payload g = DNSServerJson d.

Definition isPut (r : Request) : Prop := method (init r) = Some "PUT".

(** What idempotence asks of the provider, [stored s] being the server
    object it holds in state [s]: a request for the server object is
    answered, in any state and under any token, with a success carrying the
    stored object, and changes nothing. *)
Definition servesSettings (stored : Srv -> DNSServer) : Prop :=
  forall s token,
    exists r,
      network s {| url := dnsServerUrl;
                   init := withAuthorization noOptions token |}
      = (Responded r, s)
      /\ ok r = true
      /\ payload r = DNSServerJson (stored s).

(** A PUT on the settings resource that is answered with a success has
    replaced the stored rules by the rules it carried. *)
Definition storesSettings (stored : Srv -> DNSServer) : Prop :=
  forall s i flag rs r s',
    method i = Some "PUT" ->
    body i = Some (SettingsUpdate flag rs) ->
    network s {| url := settingsUrl; init := i |} = (Responded r, s') ->
    ok r = true ->
    rules (user_rules_settings (settings (stored s'))) = rs.

(** The filtering status of an entry, undefined when the entry has no
    [filtering_info] or the info has no status. *)
Definition statusOf (item : QueryLogItem) : option string :=
  filtering_info item ≫= filtering_status.

Definition blockedEntry (item : QueryLogItem) : Prop :=
  statusOf item = Some "REQUEST_BLOCKED"
  \/ statusOf item = Some "RESPONSE_BLOCKED".

(** [b] is the summary of [item]. *)
Definition summaryOf (item : QueryLogItem) (b : BlockedDomain) : Prop :=
  bd_domain b = domain item
  /\ bd_blocked_at b = time_iso item
  /\ bd_filter_rule b = (filtering_info item ≫= filter_rule)
  /\ bd_filter_id b = (filtering_info item ≫= filter_id).

End Tools.

Arguments M Srv A : clear implicits.


(** ** Providers to run the tools against *)

(** A provider that answers the requests it gets with the responses of a
    script, in order, and lets [fetch] reject once the script is used up. *)
Definition scripted (script : list Response) (r : Request)
    : FetchOutcome * list Response :=
  match script with
  | [] => (Rejected "fetch failed", [])
  | answer :: script' => (Responded answer, script')
  end.

(** A provider that holds one server object: it serves it on a request for
    the server resource, and on a PUT of the settings resource replaces its
    flag and rules by those of the body. *)
Definition storing (env : Env) (s : DNSServer) (r : Request)
    : FetchOutcome * DNSServer :=
  if String.eqb (url r) (dnsServerUrl env) then
    (Responded {| status := 200; statusText := "OK";
                  payload := DNSServerJson s |}, s)
  else if String.eqb (url r) (settingsUrl env) then
    match method (init r), body (init r) with
    | Some "PUT", Some (SettingsUpdate flag rs) =>
        (Responded {| status := 200; statusText := "OK"; payload := NotJson |},
         {| settings :=
              {| user_rules_settings :=
                   {| enabled := flag; rules := rs;
                      rules_count := Z.of_nat (length rs) |} |} |})
    | _, _ =>
        (Responded {| status := 400; statusText := "Bad Request";
                      payload := NotJson |}, s)
    end
  else
    (Responded {| status := 404; statusText := "Not Found";
                  payload := NotJson |}, s).

Definition exampleEnv : Env :=
  {| ADGUARD_DNS_SERVER_ID := Some "srv1";
     ADGUARD_REFRESH_TOKEN := Some "refresh1" |}.

Definition exampleWorld {Srv : Type} (s : Srv) : World Srv :=
  {| currentAccessToken := "tok1"; provider := s; requests := [];
     console := []; clock := 1700000000000 |}.

Definition serverWith (flag : bool) (rs : list string) : DNSServer :=
  {| settings :=
       {| user_rules_settings :=
            {| enabled := flag; rules := rs;
               rules_count := Z.of_nat (length rs) |} |} |}.

Definition unauthorized : Response :=
  {| status := 401; statusText := "Unauthorized"; payload := NotJson |}.

Definition unavailable : Response :=
  {| status := 503; statusText := "Service Unavailable"; payload := NotJson |}.

Definition badRequest : Response :=
  {| status := 400; statusText := "Bad Request"; payload := NotJson |}.

Definition grantedToken : TokenResponse :=
  {| access_token := "tok2"; refresh_token := None |}.

Definition tokenGranted : Response :=
  {| status := 200; statusText := "OK"; payload := TokenJson grantedToken |}.

(** The page of the time-window scenario: one blocked entry, one not. *)
Definition examplePage : QueryLogResponse :=
  {| items :=
       [ {| domain := "nflxvideo.net"; time_iso := "2024-01-01T00:05:00Z";
            time_millis := 1704067500000;
            filtering_info :=
              Some {| filtering_status := Some "REQUEST_BLOCKED";
                      filter_rule := Some "||nflxvideo.net^";
                      filter_id := None |};
            device_id := None; dns_request_type := Some "A" |};
         {| domain := "example.org"; time_iso := "2024-01-01T00:06:00Z";
            time_millis := 1704067560000;
            filtering_info :=
              Some {| filtering_status := Some "NONE";
                      filter_rule := None; filter_id := None |};
            device_id := None; dns_request_type := Some "A" |} ];
     pages := {| current := 1; total := 1 |} |}.

Definition pageServed : Response :=
  {| status := 200; statusText := "OK"; payload := QueryLogJson examplePage |}.

(** Options of a caller who sets headers of its own. *)
Definition callerOptions : RequestInit :=
  {| method := None;
     headers := Some (HeadersObject
                        (<[ "Authorization" := "Basic abc" ]>
                           (<[ "authorization" := "Basic xyz" ]>
                              {[ "X-Trace" := "1" ]})));
     body := None |}.

(** Options of a caller who passes a [Headers] instance. *)
Definition instanceOptions : RequestInit :=
  {| method := None;
     headers := Some (HeadersInstance [("X-Trace", "1")]);
     body := None |}.

(** The headers values of the requests a run has sent. *)
Definition sentHeaders {Srv : Type} (w : World Srv) : list (option HeadersInit) :=
  headers ∘ init <$> requests w.

(** An environment in which only the access token was supplied. *)
Definition envWithoutRefresh : Env :=
  {| ADGUARD_DNS_SERVER_ID := Some "srv1"; ADGUARD_REFRESH_TOKEN := None |}.

(** An environment with no server id. *)
Definition envWithoutServer : Env :=
  {| ADGUARD_DNS_SERVER_ID := None; ADGUARD_REFRESH_TOKEN := Some "refresh1" |}.

(** The success that serves the server object [d]. *)
Definition serverServed (d : DNSServer) : Response :=
  {| status := 200; statusText := "OK"; payload := DNSServerJson d |}.

(** A world with no token in store. *)
Definition tokenlessWorld {Srv : Type} (s : Srv) : World Srv :=
  {| currentAccessToken := ""; provider := s; requests := [];
     console := []; clock := 1700000000000 |}.

(** Case analysis on the answer of the network [net] to the next request. *)
Ltac case_answer net :=
  match goal with
  | |- context [net ?s ?r] =>
      let out := fresh "out" in
      let s' := fresh "s" in
      destruct (net s r) as [out s'] eqn:?; destruct out
  end.

(** ** The transport *)

Section Transport.

Context {Srv : Type}.
Variable network : Srv -> Request -> FetchOutcome * Srv.
Variable env : Env.

Lemma fetch_responded (w : World Srv) u i r s' :
  network (provider w) {| url := u; init := i |} = (Responded r, s') ->
  fetch network u i w = (Returned r, after_fetch w {| url := u; init := i |} s').
Proof. intros H. unfold fetch. now rewrite H. Qed.

Lemma fetch_rejected (w : World Srv) u i reason s' :
  network (provider w) {| url := u; init := i |} = (Rejected reason, s') ->
  fetch network u i w
  = (Thrown (FetchRejected reason), after_fetch w {| url := u; init := i |} s').
Proof. intros H. unfold fetch. now rewrite H. Qed.

Lemma falsy_Some_false s rt :
  s = Some rt -> rt <> "" -> falsy s = false.
Proof. intros -> H. simpl. now apply String.eqb_neq. Qed.

(** A refresh whose exchange is answered with a success status and a token
    body: the token is stored, one line is logged, the token is returned. *)
Lemma refreshAccessToken_ok (w : World Srv) rt r s' t :
  ADGUARD_REFRESH_TOKEN env = Some rt -> rt <> "" ->
  network (provider w) (refreshRequest rt) = (Responded r, s') ->
  ok r = true -> payload r = TokenJson t ->
  refreshAccessToken network env w
  = (Returned (access_token t),
     {| currentAccessToken := access_token t; provider := s';
        requests := requests w ++ [refreshRequest rt];
        console := console w ++ ["AdGuard API token refreshed successfully"];
        clock := clock w |}).
Proof.
  intros Hrt Hne Hnet Hok Hbody. unfold refreshAccessToken.
  rewrite (falsy_Some_false _ _ Hrt Hne), Hrt. unfold bind. simpl default.
  rewrite (fetch_responded _ _ _ _ _ Hnet), Hok. simpl negb. cbv iota.
  unfold json_TokenResponse. rewrite Hbody. reflexivity.
Qed.

(** A refresh whose exchange is answered with a status outside 200-299
    throws the refresh error; the stored token is left as it was. *)
Lemma refreshAccessToken_not_ok (w : World Srv) rt r s' :
  ADGUARD_REFRESH_TOKEN env = Some rt -> rt <> "" ->
  network (provider w) (refreshRequest rt) = (Responded r, s') ->
  ok r = false ->
  refreshAccessToken network env w
  = (Thrown (Error ("Failed to refresh token: " +:+ string_of_Z (status r)
                      +:+ " " +:+ statusText r)),
     after_fetch w (refreshRequest rt) s').
Proof.
  intros Hrt Hne Hnet Hok. unfold refreshAccessToken.
  rewrite (falsy_Some_false _ _ Hrt Hne), Hrt. unfold bind. simpl default.
  rewrite (fetch_responded _ _ _ _ _ Hnet), Hok. reflexivity.
Qed.

Lemma token_set (w : World Srv) :
  currentAccessToken w <> "" -> String.eqb (currentAccessToken w) "" = false.
Proof. intros H. now apply String.eqb_neq. Qed.

(** Any first answer other than 401 is the result; nothing else is sent. *)
Lemma callAdGuardAPI_direct (w : World Srv) u options r1 s1 :
  currentAccessToken w <> "" ->
  network (provider w) (firstRequest w u options) = (Responded r1, s1) ->
  status r1 <> 401%Z ->
  callAdGuardAPI network env u options w
  = (Returned r1, after_fetch w (firstRequest w u options) s1).
Proof.
  intros Htok Hnet Hst. unfold callAdGuardAPI, bind, get_currentAccessToken.
  rewrite (token_set _ Htok), (fetch_responded _ _ _ _ _ Hnet).
  apply Z.eqb_neq in Hst. now rewrite Hst.
Qed.

(** The world in which a 401 has been answered and logged. *)
Lemma callAdGuardAPI_unauthorized (w : World Srv) u options r1 s1 :
  currentAccessToken w <> "" ->
  network (provider w) (firstRequest w u options) = (Responded r1, s1) ->
  status r1 = 401%Z ->
  callAdGuardAPI network env u options w
  = bind (refreshAccessToken network env)
         (fun newToken =>
            fetch network u
              (retryWith (withAuthorization options (currentAccessToken w))
                         newToken))
         {| currentAccessToken := currentAccessToken w; provider := s1;
            requests := requests w ++ [firstRequest w u options];
            console := console w ++ ["Token expired, refreshing..."];
            clock := clock w |}.
Proof.
  intros Htok Hnet Hst. unfold callAdGuardAPI at 1.
  unfold bind at 1, get_currentAccessToken. rewrite (token_set _ Htok).
  unfold bind at 1. rewrite (fetch_responded _ _ _ _ _ Hnet), Hst.
  reflexivity.
Qed.

Lemma refreshAccessToken_trace (w : World Srv) :
  exists new,
    requests (refreshAccessToken network env w).2 = requests w ++ new
    /\ Forall (fun r => url r = oauthTokenUrl /\ method (init r) = Some "POST")
              new.
Proof.
  unfold refreshAccessToken.
  destruct (falsy (ADGUARD_REFRESH_TOKEN env)).
  { exists []. split; [symmetry; apply app_nil_r | constructor]. }
  set (rq := refreshInit _).
  exists [{| url := oauthTokenUrl; init := rq |}].
  split; [| repeat constructor].
  unfold bind, fetch. case_answer network; [| reflexivity].
  destruct (negb (ok r)); [reflexivity |].
  unfold json_TokenResponse. destruct (payload r); reflexivity.
Qed.

Lemma callAdGuardAPI_no_token (w : World Srv) u options :
  currentAccessToken w = "" ->
  callAdGuardAPI network env u options w
  = (Thrown (Error "ADGUARD_API_TOKEN environment variable is not set"), w).
Proof.
  intros H. unfold callAdGuardAPI, bind, get_currentAccessToken.
  now rewrite H.
Qed.

Lemma callAdGuardAPI_trace (w : World Srv) u options :
  exists new,
    requests (callAdGuardAPI network env u options w).2 = requests w ++ new
    /\ Forall (sentBy u options) new.
Proof.
  destruct (String.eqb_spec (currentAccessToken w) "") as [Htok | Htok].
  { rewrite (callAdGuardAPI_no_token _ _ _ Htok). exists [].
    split; [symmetry; apply app_nil_r | constructor]. }
  assert (Hfirst : sentBy u options (firstRequest w u options)).
  { left. now repeat split. }
  destruct (network (provider w) (firstRequest w u options))
    as [[r1 | reason] s1] eqn:Hnet.
  - destruct (Z.eq_dec (status r1) 401%Z) as [Hst | Hst].
    + rewrite (callAdGuardAPI_unauthorized _ _ _ _ _ Htok Hnet Hst).
      set (wA := Build_World _ _ _ _ _ _).
      destruct (refreshAccessToken_trace wA) as (mid & Hmid & Hall).
      unfold bind. destruct (refreshAccessToken network env wA) as [[t | e] wB].
      * unfold fetch. case_answer network; simpl in *; rewrite Hmid;
          exists (firstRequest w u options :: mid
                  ++ [{| url := u;
                         init := retryWith
                                   (withAuthorization options
                                      (currentAccessToken w)) t |}]);
          (split; [now rewrite <- !app_assoc |]);
          (constructor; [exact Hfirst |]);
          (apply Forall_app; split;
           [ eapply Forall_impl; [exact Hall | intros ? ?; now right]
           | repeat constructor; left; now repeat split ]).
      * simpl in *. rewrite Hmid. exists (firstRequest w u options :: mid).
        split; [now rewrite <- app_assoc |].
        constructor; [exact Hfirst |].
        eapply Forall_impl; [exact Hall | intros ? ?; now right].
    + rewrite (callAdGuardAPI_direct _ _ _ _ _ Htok Hnet Hst).
      exists [firstRequest w u options]. split; [reflexivity | now constructor].
  - unfold callAdGuardAPI, bind, get_currentAccessToken.
    rewrite (token_set _ Htok), (fetch_rejected _ _ _ _ _ Hnet).
    exists [firstRequest w u options]. split; [reflexivity | now constructor].
Qed.

(** A response [callAdGuardAPI] returns is the network's answer to a
    request for [u] with the method and body of [options], and it is the last
    thing the network did. *)
Lemma callAdGuardAPI_returned (w w' : World Srv) u options r :
  callAdGuardAPI network env u options w = (Returned r, w') ->
  exists s i,
    method i = method options /\ body i = body options
    /\ network s {| url := u; init := i |} = (Responded r, provider w').
Proof.
  destruct (String.eqb_spec (currentAccessToken w) "") as [Htok | Htok].
  { now rewrite (callAdGuardAPI_no_token _ _ _ Htok). }
  destruct (network (provider w) (firstRequest w u options))
    as [[r1 | reason] s1] eqn:Hnet.
  - destruct (Z.eq_dec (status r1) 401%Z) as [Hst | Hst].
    + rewrite (callAdGuardAPI_unauthorized _ _ _ _ _ Htok Hnet Hst).
      unfold bind. destruct (refreshAccessToken network env _) as [[t | e] wB];
        [| discriminate].
      unfold fetch. case_answer network; [| discriminate].
      intros [= <- <-]. eexists _, _. split; [| split]; [| | eassumption];
        reflexivity.
    + rewrite (callAdGuardAPI_direct _ _ _ _ _ Htok Hnet Hst).
      intros [= <- <-]. eexists _, _. split; [| split]; [| | exact Hnet];
        reflexivity.
  - unfold callAdGuardAPI, bind, get_currentAccessToken.
    rewrite (token_set _ Htok), (fetch_rejected _ _ _ _ _ Hnet). discriminate.
Qed.

(** A call that returns has sent its first request. *)
Lemma callAdGuardAPI_returned_sent (w w' : World Srv) u options r :
  callAdGuardAPI network env u options w = (Returned r, w') ->
  exists rest, requests w' = requests w ++ firstRequest w u options :: rest.
Proof.
  destruct (String.eqb_spec (currentAccessToken w) "") as [Htok | Htok].
  { now rewrite (callAdGuardAPI_no_token _ _ _ Htok). }
  destruct (network (provider w) (firstRequest w u options))
    as [[r1 | reason] s1] eqn:Hnet.
  - destruct (Z.eq_dec (status r1) 401%Z) as [Hst | Hst].
    + rewrite (callAdGuardAPI_unauthorized _ _ _ _ _ Htok Hnet Hst).
      set (wA := Build_World _ _ _ _ _ _).
      destruct (refreshAccessToken_trace wA) as (mid & Hmid & _).
      unfold bind. destruct (refreshAccessToken network env wA) as [[t | e] wB];
        [| discriminate].
      unfold fetch. case_answer network; [| discriminate].
      intros [= <- <-]. simpl in *. rewrite Hmid.
      eexists. now rewrite <- !app_assoc.
    + rewrite (callAdGuardAPI_direct _ _ _ _ _ Htok Hnet Hst).
      intros [= <- <-]. now exists [].
  - unfold callAdGuardAPI, bind, get_currentAccessToken.
    rewrite (token_set _ Htok), (fetch_rejected _ _ _ _ _ Hnet). discriminate.
Qed.


(** C3. Refresh failure. When the first answer is a 401 and the token
    exchange is answered with a status outside 200-299, the call throws the
    refresh error, whose message carries that answer's status and status
    text; the requests sent are the first one and the exchange, so the
    original request is not sent again, and the stored token is unchanged. *)
Theorem transport_refresh_failure (w : World Srv) u options r1 s1 rt r2 s2 :
  currentAccessToken w <> "" ->
  network (provider w) (firstRequest w u options) = (Responded r1, s1) ->
  status r1 = 401%Z ->
  ADGUARD_REFRESH_TOKEN env = Some rt -> rt <> "" ->
  network s1 (refreshRequest rt) = (Responded r2, s2) ->
  ok r2 = false ->
  callAdGuardAPI network env u options w
  = (Thrown (Error ("Failed to refresh token: " +:+ string_of_Z (status r2)
                      +:+ " " +:+ statusText r2)),
     {| currentAccessToken := currentAccessToken w; provider := s2;
        requests := requests w
                     ++ [firstRequest w u options; refreshRequest rt];
        console := console w ++ ["Token expired, refreshing..."];
        clock := clock w |}).
Proof.
  intros Htok Hnet Hst Hrt Hne Hnet2 Hok.
  rewrite (callAdGuardAPI_unauthorized _ _ _ _ _ Htok Hnet Hst).
  set (wA := Build_World _ _ _ _ _ _). unfold bind.
  rewrite (refreshAccessToken_not_ok wA rt r2 s2 Hrt Hne Hnet2 Hok).
  unfold after_fetch. subst wA. cbn [currentAccessToken provider requests console clock].
  now rewrite <- !app_assoc.
Qed.

Lemma withAuthorization_merged options token :
  exists h,
    withAuthorization options token
    = {| method := method options; headers := Some (HeadersObject h);
         body := body options |}
    /\ mergedHeaders (ownProperties (headers options)) token h.
Proof.
  eexists. split; [reflexivity |]. unfold spread. repeat split.
  - apply lookup_insert_eq.
  - intros k v Hk Hc. rewrite lookup_insert_ne by done.
    apply lookup_union_Some_l, Hc.
  - intros k Hk Hc. rewrite lookup_insert_ne by done.
    now rewrite lookup_union_r.
Qed.

Lemma retryWith_merged options token newToken :
  exists h,
    retryWith (withAuthorization options token) newToken
    = {| method := method options; headers := Some (HeadersObject h);
         body := body options |}
    /\ mergedHeaders (ownProperties (headers options)) newToken h.
Proof.
  eexists. split; [reflexivity |].
  change (ownProperties (headers (withAuthorization options token)))
    with (<[ "Authorization" := bearer token ]>
            (spread {[ "Content-Type" := "application/json" ]}
                    (ownProperties (headers options)))).
  unfold spread. repeat split.
  - apply lookup_insert_eq.
  - intros k v Hk Hc. rewrite !lookup_insert_ne by done.
    apply lookup_union_Some_l, Hc.
  - intros k Hk Hc. rewrite !lookup_insert_ne by done.
    now rewrite lookup_union_r.
Qed.

(** The two ways a refresh ends: thrown, having sent the exchange or
    nothing; or returned, the exchange sent and the token it returns stored. *)
Lemma refreshAccessToken_cases (w : World Srv) :
  (exists e w1,
     refreshAccessToken network env w = (Thrown e, w1)
     /\ (requests w1 = requests w
         \/ exists rt, requests w1 = requests w ++ [refreshRequest rt]))
  \/ (exists t w1 rt,
        refreshAccessToken network env w = (Returned t, w1)
        /\ requests w1 = requests w ++ [refreshRequest rt]
        /\ currentAccessToken w1 = t).
Proof.
  unfold refreshAccessToken.
  destruct (falsy (ADGUARD_REFRESH_TOKEN env)).
  { left. eexists _, _. split; [reflexivity | now left]. }
  set (rt := default "" _). unfold bind, fetch.
  fold (refreshRequest rt). case_answer network.
  - destruct (negb (ok r)).
    { left. eexists _, _. split; [reflexivity | right; now exists rt]. }
    unfold json_TokenResponse.
    destruct (payload r) as [t | | |];
      try (left; eexists _, _; split; [reflexivity | right; now exists rt]).
    right. eexists _, _, rt. split; [reflexivity | now split].
  - left. eexists _, _. split; [reflexivity | right; now exists rt].
Qed.

(** C9 (as amended). Header layers. A call with a token in store sends
    first a request whose headers object is built in three layers.  Under the
    exact key [Authorization] stands the bearer of [currentAccessToken],
    whatever the caller put under that key.  Every other own property of the
    caller's headers value is passed on as it is: for a plain object, each
    of its headers, also one spelled [authorization].  The one header that
    may come from neither is the default [Content-Type], which a caller's
    overrides.  Nothing, the token exchange
    alone, or the exchange and one retry follow; the retry's headers are
    layered the same way with the token then in store. *)
Theorem transport_header_precedence (w : World Srv) u options :
  currentAccessToken w <> "" ->
  let caller := ownProperties (headers options) in
  let w' := (callAdGuardAPI network env u options w).2 in
  let request h :=
    {| url := u;
       init := {| method := method options; headers := Some (HeadersObject h);
                  body := body options |} |} in
  exists h1 rest,
    requests w' = requests w ++ request h1 :: rest
    /\ mergedHeaders caller (currentAccessToken w) h1
    /\ (rest = []
        \/ (exists rt, rest = [refreshRequest rt])
        \/ (exists rt h2,
              rest = [refreshRequest rt; request h2]
              /\ mergedHeaders caller (currentAccessToken w') h2)).
Proof.
  intros Htok caller w' request. subst w'.
  destruct (withAuthorization_merged options (currentAccessToken w))
    as (h1 & Eh1 & Hm1).
  assert (Efirst : firstRequest w u options = request h1).
  { unfold firstRequest, request. now rewrite Eh1. }
  exists h1.
  destruct (network (provider w) (firstRequest w u options))
    as [[r1 | reason] s1] eqn:Hnet.
  - destruct (Z.eq_dec (status r1) 401%Z) as [Hst | Hst].
    + rewrite (callAdGuardAPI_unauthorized _ _ _ _ _ Htok Hnet Hst).
      set (wA := Build_World _ _ _ _ _ _).
      assert (EA : requests wA = requests w ++ [request h1])
        by (now rewrite <- Efirst).
      unfold bind.
      destruct (refreshAccessToken_cases wA)
        as [(e & w1 & -> & Hreq) | (t & w1 & rt & -> & Hreq & Htok1)].
      * cbn [snd]. destruct Hreq as [-> | [rt ->]]; rewrite EA.
        -- exists []. split; [reflexivity | split; [exact Hm1 | auto]].
        -- exists [refreshRequest rt]. rewrite <- app_assoc.
           split; [reflexivity | split; [exact Hm1 | eauto]].
      * destruct (retryWith_merged options (currentAccessToken w) t)
          as (h2 & Eh2 & Hm2).
        exists [refreshRequest rt; request h2].
        unfold fetch. rewrite Eh2. fold (request h2).
        case_answer network;
          cbn [snd after_fetch requests currentAccessToken];
          rewrite Hreq, EA, <- !app_assoc, Htok1;
          (split; [reflexivity | split; [exact Hm1 | eauto 10]]).
    + rewrite (callAdGuardAPI_direct _ _ _ _ _ Htok Hnet Hst).
      exists []. rewrite <- Efirst.
      split; [reflexivity | split; [exact Hm1 | auto]].
  - unfold callAdGuardAPI, bind, get_currentAccessToken.
    rewrite (token_set _ Htok), (fetch_rejected _ _ _ _ _ Hnet).
    exists []. rewrite <- Efirst.
    split; [reflexivity | split; [exact Hm1 | auto]].
Qed.

End Transport.

(** ** The loop of the whitelist mutator *)

Lemma includes_elem_of (a : list string) (x : string) :
  includes a x = true <-> x ∈ a.
Proof.
  induction a as [| y a IH]; simpl.
  - split; [discriminate | intros H; inversion H].
  - destruct (String.eqb_spec y x) as [-> | Hne].
    + split; [intros _; left | reflexivity].
    + rewrite IH. split; [now right |].
      intros H. inversion H; subst; [congruence | assumption].
Qed.

Lemma includes_not_elem_of (a : list string) (x : string) :
  includes a x = false <-> x ∉ a.
Proof.
  rewrite <- includes_elem_of. destruct (includes a x); split; congruence.
Qed.

Lemma length_append (a b : string) :
  String.length (a +:+ b) = String.length a + String.length b.
Proof.
  induction a as [| c a IH]; [reflexivity |].
  change (String c a +:+ b) with (String c (a +:+ b)).
  cbn [String.length]. now rewrite IH.
Qed.

Lemma append_inj_l (suffix a b : string) :
  a +:+ suffix = b +:+ suffix -> a = b.
Proof.
  intros H.
  assert (Hlen : String.length a = String.length b).
  { apply (f_equal String.length) in H. rewrite !length_append in H. lia. }
  revert b H Hlen. induction a as [| c a IH]; intros [| c' b] H Hlen;
    try discriminate; [reflexivity |].
  change (String c (a +:+ suffix) = String c' (b +:+ suffix)) in H.
  injection H as -> H. f_equal. apply IH; [exact H |].
  cbn [String.length] in Hlen. lia.
Qed.

Lemma whitelistRule_inj (d d' : string) :
  whitelistRule d = whitelistRule d' -> d = d'.
Proof.
  unfold whitelistRule. intros H. apply (inj (String.app "@@||")) in H.
  now apply append_inj_l in H.
Qed.

(** The loop leaves in [newRules] the rules of the domains it did not find,
    and in [alreadyWhitelisted] the domains it found, both in input order. *)
Lemma classify_fold (cur domains : list string) acc :
  fold_left (classify cur) domains acc
  = (acc.1 ++ (whitelistRule <$> filter (fun d => whitelistRule d ∉ cur) domains),
     acc.2 ++ filter (fun d => whitelistRule d ∈ cur) domains).
Proof.
  revert acc. induction domains as [| d domains IH]; intros [new old].
  - simpl. now rewrite !app_nil_r.
  - cbn [fold_left]. rewrite IH. unfold classify. cbn [fst snd].
    rewrite !filter_cons.
    destruct (includes cur (whitelistRule d)) eqn:E.
    + apply includes_elem_of in E.
      rewrite decide_False by (intros Hn; now apply Hn).
      rewrite decide_True by exact E.
      cbn [fst snd]. now rewrite <- app_assoc.
    + apply includes_not_elem_of in E.
      rewrite decide_True by exact E. rewrite decide_False by exact E.
      cbn [fst snd]. rewrite fmap_cons. now rewrite <- app_assoc.
Qed.

Lemma classifyAll_spec (cur domains : list string) :
  classifyAll cur domains
  = (whitelistRule <$> filter (fun d => whitelistRule d ∉ cur) domains,
     filter (fun d => whitelistRule d ∈ cur) domains).
Proof. unfold classifyAll. now rewrite classify_fold. Qed.

(** The rules of the domains not found: each is absent from the rules
    searched, and they repeat exactly as those domains repeat. *)
Lemma absent_rules_fresh (cur absent : list string) :
  Forall (fun x => whitelistRule x ∉ cur) absent ->
  Forall (fun r => r ∉ cur) (whitelistRule <$> absent)
  /\ (NoDup (whitelistRule <$> absent) <-> NoDup absent).
Proof.
  intros Habs. split.
  - now apply Forall_fmap.
  - apply NoDup_fmap. intros d d'. apply whitelistRule_inj.
Qed.

(** ** The whitelist mutator *)

Section Mutator.

Context {Srv : Type}.
Variable network : Srv -> Request -> FetchOutcome * Srv.
Variable env : Env.

Lemma unblock_after_read (w w1 : World Srv) g d domains :
  readReturns network env w g w1 d ->
  let currentRules := rules (user_rules_settings (settings d)) in
  let newRules := (classifyAll currentRules domains).1 in
  let alreadyWhitelisted := (classifyAll currentRules domains).2 in
  unblockDomainTool network env domains w
  = if (length newRules =? 0)%nat then
      (Returned {| success := true;
                   message := "All " +:+ string_of_nat (length domains)
                                +:+ " domain(s) are already whitelisted";
                   rules_added := [];
                   already_whitelisted := alreadyWhitelisted |}, w1)
    else
      match callAdGuardAPI network env (settingsUrl env)
              (putInit (enabled (user_rules_settings (settings d)))
                       (currentRules ++ newRules)) w1 with
      | (Returned putResponse, w2) =>
          if negb (ok putResponse) then
            (Thrown (Error ("Failed to update settings: "
                              +:+ string_of_Z (status putResponse)
                              +:+ " " +:+ statusText putResponse)), w2)
          else
            (Returned
               {| success := true;
                  message :=
                    "Successfully added " +:+ string_of_nat (length newRules)
                      +:+ " whitelist rule(s) for: "
                      +:+ join ", "
                            (List.filter
                               (fun x => negb (includes alreadyWhitelisted x))
                               domains);
                  rules_added := newRules;
                  already_whitelisted := alreadyWhitelisted |}, w2)
      | (Thrown e, w2) => (Thrown e, w2)
      end.
Proof.
  intros (Hid & Hread & Hok & Hbody) currentRules newRules alreadyWhitelisted.
  unfold unblockDomainTool. rewrite Hid. unfold bind at 1.
  rewrite Hread, Hok. cbn [negb]. unfold bind at 1, json_DNSServer.
  rewrite Hbody. unfold ret at 1.
  fold currentRules. fold newRules. fold alreadyWhitelisted.
  destruct (length newRules =? 0)%nat; [reflexivity |].
  unfold bind.
  destruct (callAdGuardAPI network env (settingsUrl env) _ w1) as [[p | e] w2];
    [| reflexivity].
  now destruct (negb (ok p)).
Qed.

(** The requests of a read that returned: none is a PUT, and the first is
    the request for the server object. *)
Lemma read_requests (w w1 : World Srv) g d :
  readReturns network env w g w1 d ->
  exists rest,
    requests w1 = requests w ++ firstRequest w (dnsServerUrl env) noOptions :: rest
    /\ Forall (fun r => ~ isPut r)
              (firstRequest w (dnsServerUrl env) noOptions :: rest).
Proof.
  intros (_ & Hread & _).
  destruct (callAdGuardAPI_returned_sent _ _ _ _ _ _ _ Hread) as [rest Hreq].
  exists rest. split; [exact Hreq |].
  destruct (callAdGuardAPI_trace network env w (dnsServerUrl env) noOptions)
    as (new & Hnew & Hall).
  rewrite Hread in Hnew. cbn [snd] in Hnew. rewrite Hreq in Hnew.
  apply app_inv_head in Hnew. subst new.
  eapply Forall_impl; [exact Hall |].
  intros r [(_ & Hm & _) | (_ & Hm)]; unfold isPut; rewrite Hm; discriminate.
Qed.

Lemma classifyAll_all_present (cur domains : list string) :
  Forall (fun x => whitelistRule x ∈ cur) domains ->
  classifyAll cur domains = ([], domains).
Proof.
  intros Hall. rewrite classifyAll_spec. f_equal.
  - induction Hall as [| x l Hx _ IH]; [reflexivity |].
    rewrite filter_cons, decide_False by (intros Hn; now apply Hn).
    exact IH.
  - induction Hall as [| x l Hx _ IH]; [reflexivity |].
    rewrite filter_cons, decide_True by exact Hx. now rewrite IH.
Qed.

Lemma unblock_all_present (w w1 : World Srv) g d domains :
  readReturns network env w g w1 d ->
  Forall (fun x => whitelistRule x ∈ rules (user_rules_settings (settings d)))
         domains ->
  unblockDomainTool network env domains w
  = (Returned {| success := true;
                 message := "All " +:+ string_of_nat (length domains)
                              +:+ " domain(s) are already whitelisted";
                 rules_added := [];
                 already_whitelisted := domains |}, w1).
Proof.
  intros Hread Hall. rewrite (unblock_after_read _ _ _ _ _ Hread).
  now rewrite (classifyAll_all_present _ _ Hall).
Qed.

(** C7. Short circuit. When the read returns the current rules and the rule
    of every input domain is among them, the tool returns success with no
    rule added and every input domain reported as already whitelisted, in the
    world the read left: the requests sent are those of the read, and none of
    them is a PUT. *)
Theorem unblock_short_circuit (w w1 : World Srv) g d domains :
  readReturns network env w g w1 d ->
  Forall (fun x => whitelistRule x ∈ rules (user_rules_settings (settings d)))
         domains ->
  unblockDomainTool network env domains w
  = (Returned {| success := true;
                 message := "All " +:+ string_of_nat (length domains)
                              +:+ " domain(s) are already whitelisted";
                 rules_added := [];
                 already_whitelisted := domains |}, w1)
  /\ exists new,
       requests w1 = requests w ++ new /\ Forall (fun r => ~ isPut r) new.
Proof.
  intros Hread Hall. split; [now apply (unblock_all_present _ _ g d) |].
  destruct (read_requests _ _ _ _ Hread) as (rest & Hreq & Hno). eauto.
Qed.

(** C10. Empty input. With no domain to unblock, the tool performs the
    configuration read and nothing else: it returns success, no rule added,
    no domain already whitelisted and the message for 0 domains, in the world
    the read left, whose new requests start with the request for the server
    object and contain no PUT. *)
Theorem unblock_empty_input (w w1 : World Srv) g d :
  readReturns network env w g w1 d ->
  unblockDomainTool network env [] w
  = (Returned {| success := true;
                 message := "All 0 domain(s) are already whitelisted";
                 rules_added := [];
                 already_whitelisted := [] |}, w1)
  /\ exists rest,
       requests w1
       = requests w ++ firstRequest w (dnsServerUrl env) noOptions :: rest
       /\ Forall (fun r => ~ isPut r)
                 (firstRequest w (dnsServerUrl env) noOptions :: rest).
Proof.
  intros Hread. split; [| now apply (read_requests _ _ g d)].
  now rewrite (unblock_all_present _ _ g d [] Hread) by constructor.
Qed.

(** C5. Partition. When the read returns the current rules, and the write,
    if one is needed, is acknowledged, the tool returns success with
    [already_whitelisted] the input domains whose rule is among the current
    rules and [rules_added] the rules of the other input domains, both in
    input order. *)
Theorem unblock_partition (w w1 : World Srv) g d domains :
  readReturns network env w g w1 d ->
  let cur := rules (user_rules_settings (settings d)) in
  let present := filter (fun x => whitelistRule x ∈ cur) domains in
  let absent := filter (fun x => whitelistRule x ∉ cur) domains in
  (absent <> [] ->
   exists p w2,
     callAdGuardAPI network env (settingsUrl env)
       (putInit (enabled (user_rules_settings (settings d)))
                (cur ++ (whitelistRule <$> absent))) w1
     = (Returned p, w2)
     /\ ok p = true) ->
  exists out w',
    unblockDomainTool network env domains w = (Returned out, w')
    /\ success out = true
    /\ already_whitelisted out = present
    /\ rules_added out = whitelistRule <$> absent.
Proof.
  intros Hread cur present absent Hput.
  rewrite (unblock_after_read _ _ _ _ _ Hread). fold cur.
  rewrite classifyAll_spec. cbn [fst snd]. fold present. fold absent.
  destruct absent as [| x absent'] eqn:Eabs.
  - cbn [fmap list_fmap length Nat.eqb]. eexists _, _.
    split; [reflexivity | now repeat split].
  - destruct Hput as (p & w2 & -> & Hok); [discriminate |].
    rewrite Hok. cbn [fmap list_fmap length Nat.eqb negb]. eexists _, _.
    split; [reflexivity | now repeat split].
Qed.

(** With a token in store the transport sends its first request, however
    the call ends. *)
Lemma callAdGuardAPI_sends_first (w : World Srv) u options :
  currentAccessToken w <> "" ->
  exists rest,
    requests (callAdGuardAPI network env u options w).2
    = requests w ++ firstRequest w u options :: rest.
Proof.
  intros Htok.
  destruct (network (provider w) (firstRequest w u options))
    as [[r1 | reason] s1] eqn:Hnet.
  - destruct (Z.eq_dec (status r1) 401%Z) as [Hst | Hst].
    + rewrite (callAdGuardAPI_unauthorized _ _ _ _ _ _ _ Htok Hnet Hst).
      set (wA := Build_World _ _ _ _ _ _). unfold bind.
      destruct (refreshAccessToken_cases network env wA)
        as [(e & w1 & -> & Hreq) | (t & w1 & rt & -> & Hreq & _)].
      * cbn [snd]. destruct Hreq as [-> | [rt ->]]; [now exists [] |].
        eexists. cbn [wA requests]. now rewrite <- app_assoc.
      * unfold fetch. case_answer network; cbn [snd after_fetch requests];
          rewrite Hreq; eexists; cbn [wA requests];
          now rewrite <- !app_assoc.
    + rewrite (callAdGuardAPI_direct _ _ _ _ _ _ _ Htok Hnet Hst). now exists [].
  - unfold callAdGuardAPI, bind, get_currentAccessToken.
    rewrite (token_set _ Htok), (fetch_rejected _ _ _ _ _ _ Hnet). now exists [].
Qed.

(** C8. Frame of the write. When the read returns the settings [d], every
    PUT the tool sends goes to the settings resource and carries the flag
    [enabled] as read and, for its rules, the rules read, in their order,
    followed by the rules of the input domains not found among them, in input
    order; and when there is such a domain and a token is in store, that PUT
    is sent. *)
Theorem unblock_write_frame (w w1 : World Srv) g d domains :
  readReturns network env w g w1 d ->
  let cur := rules (user_rules_settings (settings d)) in
  let flag := enabled (user_rules_settings (settings d)) in
  let added := whitelistRule <$> filter (fun x => whitelistRule x ∉ cur) domains in
  let w' := (unblockDomainTool network env domains w).2 in
  exists new,
    requests w' = requests w ++ new
    /\ Forall (fun r => isPut r ->
                        url r = settingsUrl env
                        /\ body (init r) = Some (SettingsUpdate flag (cur ++ added)))
              new
    /\ (added <> [] -> currentAccessToken w1 <> "" ->
        firstRequest w1 (settingsUrl env) (putInit flag (cur ++ added)) ∈ new).
Proof.
  intros Hread cur flag added w'. subst w'.
  rewrite (unblock_after_read _ _ _ _ _ Hread). fold cur. fold flag.
  rewrite classifyAll_spec. cbn [fst snd]. fold added.
  destruct (read_requests _ _ _ _ Hread) as (rest & Hreq & Hno).
  destruct added as [| a added'] eqn:Eadd.
  - cbn [length Nat.eqb snd]. eexists. split; [exact Hreq |]. split.
    + eapply Forall_impl; [exact Hno |]. intros r Hn Hp. now destruct Hn.
    + intros Hne. now destruct Hne.
  - cbn [length Nat.eqb]. set (put := putInit flag (cur ++ a :: added')).
    destruct (callAdGuardAPI_trace network env w1 (settingsUrl env) put)
      as (new2 & Hnew2 & Hall2).
    assert (Hw2 : forall c w2,
              callAdGuardAPI network env (settingsUrl env) put w1 = (c, w2) ->
              requests w2 = requests w1 ++ new2).
    { intros c w2 E. now rewrite E in Hnew2. }
    assert (Hfirst : currentAccessToken w1 <> "" ->
              firstRequest w1 (settingsUrl env) put ∈ new2).
    { intros Htok.
      destruct (callAdGuardAPI_sends_first w1 (settingsUrl env) put Htok)
        as [rest2 Hsent].
      rewrite Hnew2 in Hsent. apply app_inv_head in Hsent. subst new2.
      apply list_elem_of_here. }
    exists ((firstRequest w (dnsServerUrl env) noOptions :: rest) ++ new2).
    assert (Ereq : forall w2 : World Srv, requests w2 = requests w1 ++ new2 ->
              requests w2
              = requests w
                  ++ (firstRequest w (dnsServerUrl env) noOptions :: rest)
                  ++ new2).
    { intros w2 ->. rewrite Hreq. now rewrite <- app_assoc. }
    split; [| split].
    + destruct (callAdGuardAPI network env (settingsUrl env) put w1)
        as [[p | e] w2] eqn:E; [destruct (negb (ok p)) |];
        cbn [snd]; apply Ereq, (Hw2 _ _ eq_refl).
    + apply Forall_app. split.
      * eapply Forall_impl; [exact Hno |]. intros r Hn Hp. now destruct Hn.
      * eapply Forall_impl; [exact Hall2 |].
        intros r [(Hu & _ & Hb) | (_ & Hm)] Hp; [now split |].
        unfold isPut in Hp. rewrite Hm in Hp. discriminate.
    + intros _ Htok. apply elem_of_app. right. now apply Hfirst.
Qed.

(** C1 (as amended). The rules appended in the write. When the read
    returns the current rules, every PUT the tool sends carries those rules
    followed by the rules of the input domains not found among them, and such
    a PUT is sent when there is such a domain and a token is in store.  Each
    appended rule is absent from the rules read.  The appended rules are
    pairwise distinct exactly when no input domain whose rule was not found
    occurs twice in the input; so they are when no domain occurs twice at
    all, and repeats of domains already whitelisted do no harm. *)
Theorem appended_rules_fresh (w w1 : World Srv) g d domains :
  readReturns network env w g w1 d ->
  let cur := rules (user_rules_settings (settings d)) in
  let flag := enabled (user_rules_settings (settings d)) in
  let absent := filter (fun x => whitelistRule x ∉ cur) domains in
  let added := whitelistRule <$> absent in
  let w' := (unblockDomainTool network env domains w).2 in
  (exists new,
     requests w' = requests w ++ new
     /\ Forall (fun r => isPut r ->
                         body (init r) = Some (SettingsUpdate flag (cur ++ added)))
               new
     /\ (absent <> [] -> currentAccessToken w1 <> "" -> Exists isPut new))
  /\ Forall (fun r => r ∉ cur) added
  /\ (NoDup added <-> NoDup absent)
  /\ (NoDup domains -> NoDup added).
Proof.
  intros Hread cur flag absent added w'. subst w'.
  assert (Habs : Forall (fun x => whitelistRule x ∉ cur) absent).
  { apply Forall_forall. intros x Hx. now apply list_elem_of_filter in Hx. }
  destruct (absent_rules_fresh cur absent Habs) as [Hfresh Hdistinct].
  split; [| split; [exact Hfresh | split; [exact Hdistinct |]]].
  2: { intros Hnd. apply Hdistinct. now apply NoDup_filter. }
  rewrite (unblock_after_read _ _ _ _ _ Hread). fold cur. fold flag.
  rewrite classifyAll_spec. cbn [fst snd]. fold absent. fold added.
  destruct (read_requests _ _ _ _ Hread) as (rest & Hreq & Hno).
  destruct absent as [| a absent'] eqn:Eabs.
  - cbn [added fmap list_fmap length Nat.eqb snd].
    eexists. split; [exact Hreq |]. split.
    + eapply Forall_impl; [exact Hno |]. intros r Hn Hp. now destruct Hn.
    + intros Hne. now destruct Hne.
  - assert (Elen : (length added =? 0)%nat = false) by reflexivity.
    rewrite Elen. set (put := putInit flag (cur ++ added)).
    destruct (callAdGuardAPI_trace network env w1 (settingsUrl env) put)
      as (new2 & Hnew2 & Hall2).
    exists ((firstRequest w (dnsServerUrl env) noOptions :: rest) ++ new2).
    split; [| split].
    + assert (E : requests
                    (callAdGuardAPI network env (settingsUrl env) put w1).2
                  = requests w
                      ++ (firstRequest w (dnsServerUrl env) noOptions :: rest)
                      ++ new2).
      { rewrite Hnew2, Hreq. now rewrite <- app_assoc. }
      destruct (callAdGuardAPI network env (settingsUrl env) put w1)
        as [[p | e] w2]; [destruct (negb (ok p)) |]; exact E.
    + apply Forall_app. split.
      * eapply Forall_impl; [exact Hno |]. intros r Hn Hp. now destruct Hn.
      * eapply Forall_impl; [exact Hall2 |].
        intros r [(_ & _ & Hb) | (_ & Hm)] Hp; [exact Hb |].
        unfold isPut in Hp. rewrite Hm in Hp. discriminate.
    + intros _ Htok. apply Exists_app. right.
      destruct (callAdGuardAPI_sends_first w1 (settingsUrl env) put Htok)
        as [rest2 Hsent].
      rewrite Hnew2 in Hsent. apply app_inv_head in Hsent. subst new2.
      now left.
Qed.

Lemma ok_not_unauthorized r : ok r = true -> status r <> 401%Z.
Proof. unfold ok. intros H E. rewrite E in H. discriminate. Qed.

Lemma served_read (stored : Srv -> DNSServer) (w : World Srv) :
  (servesSettings network env stored) ->
  falsy (ADGUARD_DNS_SERVER_ID env) = false ->
  currentAccessToken w <> "" ->
  exists g,
    readReturns network env w g
      (after_fetch w (firstRequest w (dnsServerUrl env) noOptions) (provider w))
      (stored (provider w)).
Proof.
  intros Hserve Hid Htok.
  destruct (Hserve (provider w) (currentAccessToken w)) as (g & Hnet & Hok & Hb).
  exists g. repeat split; try assumption.
  apply callAdGuardAPI_direct; [exact Htok | exact Hnet |].
  now apply ok_not_unauthorized.
Qed.

(** C4. Idempotence. Against a provider that serves the stored settings and
    stores the rules it is PUT: once [unblockDomainTool domains] has
    returned, the provider's rules contain the rule of every input domain;
    and a second call on the same domains, a token being in store, returns
    success with no rule added and all of [domains] already whitelisted,
    having sent the one request for the server object, which is no PUT.  In
    particular a rule the loop has added for a domain is found by the next
    loop over that domain. *)
Theorem unblock_idempotent (stored : Srv -> DNSServer) (w w1 : World Srv)
    domains out1 :
  (servesSettings network env stored) -> (storesSettings network env stored) ->
  unblockDomainTool network env domains w = (Returned out1, w1) ->
  currentAccessToken w1 <> "" ->
  Forall (fun x => whitelistRule x
                     ∈ rules (user_rules_settings (settings (stored (provider w1)))))
         domains
  /\ unblockDomainTool network env domains w1
     = (Returned {| success := true;
                    message := "All " +:+ string_of_nat (length domains)
                                 +:+ " domain(s) are already whitelisted";
                    rules_added := [];
                    already_whitelisted := domains |},
        after_fetch w1 (firstRequest w1 (dnsServerUrl env) noOptions)
                    (provider w1))
  /\ ~ isPut (firstRequest w1 (dnsServerUrl env) noOptions)
  /\ (forall cur x,
        classifyAll (cur ++ (classifyAll cur [x]).1) [x] = ([], [x])).
Proof.
  intros Hserve Hstore Hrun Htok1.
  assert (Hid : falsy (ADGUARD_DNS_SERVER_ID env) = false).
  { unfold unblockDomainTool in Hrun.
    destruct (falsy (ADGUARD_DNS_SERVER_ID env)); [discriminate | reflexivity]. }
  assert (Hrules :
    Forall (fun x => whitelistRule x
                       ∈ rules (user_rules_settings (settings (stored (provider w1)))))
           domains).
  { destruct (String.eqb_spec (currentAccessToken w) "") as [Htok | Htok].
    { unfold unblockDomainTool in Hrun. rewrite Hid in Hrun.
      unfold bind in Hrun.
      rewrite (callAdGuardAPI_no_token _ _ _ _ _ Htok) in Hrun. discriminate. }
    destruct (served_read stored w Hserve Hid Htok) as (g & Hread).
    rewrite (unblock_after_read _ _ _ _ _ Hread) in Hrun.
    rewrite classifyAll_spec in Hrun. cbn [fst snd] in Hrun.
    set (cur := rules (user_rules_settings (settings (stored (provider w))))) in *.
    set (absent := filter (fun x => whitelistRule x ∉ cur) domains) in *.
    assert (Hin : forall rs : list string,
                (forall r, r ∈ cur ++ (whitelistRule <$> absent) -> r ∈ rs) ->
                Forall (fun x => whitelistRule x ∈ rs) domains).
    { intros rs Hsub. apply Forall_forall. intros x Hx. apply Hsub.
      apply elem_of_app.
      destruct (decide (whitelistRule x ∈ cur)) as [Hc | Hc]; [now left | right].
      apply list_elem_of_fmap. exists x. split; [reflexivity |].
      now apply list_elem_of_filter. }
    destruct (length (whitelistRule <$> absent) =? 0)%nat eqn:Elen.
    - injection Hrun as _ <-. cbn [provider after_fetch]. apply Hin.
      apply Nat.eqb_eq, length_zero_iff_nil in Elen. rewrite Elen.
      intros r. now rewrite app_nil_r.
    - destruct (callAdGuardAPI network env (settingsUrl env) _ _)
        as [[p | e] w2] eqn:Eput; [| discriminate].
      destruct (ok p) eqn:Hok; [| discriminate]. cbn [negb] in Hrun.
      injection Hrun as _ <-.
      destruct (callAdGuardAPI_returned _ _ _ _ _ _ _ Eput)
        as (s & i & Hm & Hb & Hnet).
      rewrite (Hstore s i _ _ p (provider w2) Hm Hb Hnet Hok).
      apply Hin. auto. }
  split; [exact Hrules |]. split; [| split].
  - destruct (served_read stored w1 Hserve Hid Htok1) as (g & Hread).
    now apply (unblock_all_present _ _ g _ _ Hread).
  - discriminate.
  - intros cur x. rewrite (classifyAll_spec cur [x]). cbn [fst].
    apply classifyAll_all_present. constructor; [| constructor].
    apply elem_of_app.
    destruct (decide (whitelistRule x ∈ cur)) as [Hc | Hc]; [now left | right].
    rewrite filter_cons, decide_True by exact Hc. apply list_elem_of_here.
Qed.

End Mutator.

(** ** The query-log fetch *)

Section QueryLog.

Context {Srv : Type}.
Variable network : Srv -> Request -> FetchOutcome * Srv.
Variable env : Env.

Lemma strict_eq_true o lit : strict_eq o lit = true <-> o = Some lit.
Proof.
  destruct o as [x |]; simpl; [| split; discriminate].
  rewrite String.eqb_eq. split; congruence.
Qed.

Lemma isBlocked_spec item : isBlocked item = true <-> blockedEntry item.
Proof.
  unfold isBlocked, blockedEntry, statusOf.
  now rewrite orb_true_iff, !strict_eq_true.
Qed.

Lemma filter_isBlocked (l : list QueryLogItem) :
  List.filter isBlocked l = filter blockedEntry l.
Proof.
  induction l as [| item l IH]; [reflexivity |].
  cbn [List.filter]. rewrite filter_cons, IH.
  destruct (isBlocked item) eqn:E.
  - apply isBlocked_spec in E. now rewrite decide_True.
  - rewrite decide_False; [reflexivity |].
    intros H. apply isBlocked_spec in H. congruence.
Qed.

(** C6. Filtering. When the transport returns a success carrying the page
    [q], the tool returns, in the world the fetch left: as [total_queries]
    the number of all entries of the page; as [blocked_domains], one summary
    for each entry whose filtering status is REQUEST_BLOCKED or
    RESPONSE_BLOCKED, in the order of the page, holding the entry's domain,
    its [time_iso] as [blocked_at], and its filter rule and filter id when it
    has them. *)
Theorem getQueryLog_filters_blocked (w w1 : World Srv) minutes r q :
  callAdGuardAPI network env
    (queryLogUrl (clock w - minutes * 60 * 1000) (clock w)) noOptions w
  = (Returned r, w1) ->
  ok r = true ->
  payload r = QueryLogJson q ->
  exists out,
    getQueryLogTool network env minutes w = (Returned out, w1)
    /\ total_queries out = length (items q)
    /\ Forall2 summaryOf (filter blockedEntry (items q)) (blocked_domains out).
Proof.
  intros Hcall Hok Hbody. unfold getQueryLogTool.
  unfold bind at 1, Date_now. unfold bind at 1. rewrite Hcall, Hok.
  cbn [negb]. unfold bind, json_QueryLogResponse. rewrite Hbody.
  eexists. split; [reflexivity |]. split; [reflexivity |].
  cbn [blocked_domains]. rewrite filter_isBlocked.
  induction (filter blockedEntry (items q)) as [| item l IH]; constructor.
  - now repeat split.
  - exact IH.
Qed.

End QueryLog.

(** ** The theorems at work on concrete runs *)

(** C1 as stated fails: a domain given twice and not yet whitelisted has
    its rule collected twice, so the appended rules are not pairwise
    distinct; run against a provider with no rule, the tool reports the rule
    twice, its PUT carries it twice and the provider ends up holding it
    twice. *)
Lemma appended_rules_repeat :
  ~ (NoDup (classifyAll [] ["a.com"; "a.com"]).1
     /\ Forall (fun r => r ∉ ([] : list string))
               (classifyAll [] ["a.com"; "a.com"]).1)
  /\ (let run := unblockDomainTool (storing exampleEnv) exampleEnv
                    ["a.com"; "a.com"] (exampleWorld (serverWith true [])) in
      (rules_added <$> (match run.1 with Returned o => Some o | Thrown _ => None end))
      = Some ["@@||a.com^"; "@@||a.com^"]
      /\ (body ∘ init <$> requests run.2)
         = [None; Some (SettingsUpdate true ["@@||a.com^"; "@@||a.com^"])]
      /\ rules (user_rules_settings (settings (provider run.2)))
         = ["@@||a.com^"; "@@||a.com^"]).
Proof.
  split.
  - intros [Hnd _]. vm_compute in Hnd. apply NoDup_cons in Hnd as [Hn _].
    apply Hn, list_elem_of_here.
  - vm_compute. repeat split.
Defined.


Lemma transport_refresh_failure_witness :
  let run := callAdGuardAPI scripted exampleEnv "https://api.adguard-dns.io/x"
               noOptions (exampleWorld [unauthorized; badRequest; unavailable]) in
  run.1 = Thrown (Error "Failed to refresh token: 400 Bad Request")
  /\ length (requests run.2) = 2
  /\ currentAccessToken run.2 = "tok1"
  /\ provider run.2 = [unavailable].
Proof.
  cbv zeta.
  rewrite (transport_refresh_failure scripted exampleEnv
             (exampleWorld [unauthorized; badRequest; unavailable])
             "https://api.adguard-dns.io/x" noOptions
             unauthorized [badRequest; unavailable] "refresh1"
             badRequest [unavailable]
             ltac:(discriminate) eq_refl eq_refl eq_refl ltac:(discriminate)
             eq_refl eq_refl).
  repeat split.
Defined.

(** The storing provider meets the two demands of idempotence. *)
Lemma storing_serves : servesSettings (storing exampleEnv) exampleEnv id.
Proof.
  intros s token. eexists. split; [reflexivity |]. split; reflexivity.
Qed.

Lemma storing_stores : storesSettings (storing exampleEnv) exampleEnv id.
Proof.
  intros s i flag rs r s' Hm Hb Hnet Hok. unfold storing in Hnet.
  cbn [url init] in Hnet. rewrite Hm, Hb in Hnet.
  change (String.eqb (settingsUrl exampleEnv) (dnsServerUrl exampleEnv))
    with false in Hnet.
  rewrite String.eqb_refl in Hnet. now injection Hnet as _ <-.
Qed.

(** The read of the server object from the example world, against the
    storing provider holding [d]. *)
Lemma storing_read (d : DNSServer) :
  exists g,
    readReturns (storing exampleEnv) exampleEnv (exampleWorld d) g
      (after_fetch (exampleWorld d)
         (firstRequest (exampleWorld d) (dnsServerUrl exampleEnv) noOptions) d)
      d.
Proof.
  apply (served_read (storing exampleEnv) exampleEnv id (exampleWorld d)).
  - apply storing_serves.
  - reflexivity.
  - discriminate.
Qed.

Lemma appended_rules_fresh_witness :
  let w := exampleWorld (serverWith true ["@@||a.com^"]) in
  let w' := (unblockDomainTool (storing exampleEnv) exampleEnv
               ["a.com"; "a.com"; "b.com"] w).2 in
  (exists new,
     requests w' = requests w ++ new
     /\ Forall (fun r => isPut r ->
                         body (init r)
                         = Some (SettingsUpdate true ["@@||a.com^"; "@@||b.com^"]))
               new
     /\ Exists isPut new)
  /\ Forall (fun r => r ∉ ["@@||a.com^"]) ["@@||b.com^"]
  /\ NoDup ["@@||b.com^"].
Proof.
  intros w w'.
  destruct (storing_read (serverWith true ["@@||a.com^"])) as (g & Hread).
  destruct (appended_rules_fresh (storing exampleEnv) exampleEnv _ _ g _
              ["a.com"; "a.com"; "b.com"] Hread)
    as ((new & Hreq & Hall & Hsent) & Hfresh & Hdistinct & _).
  split; [| split].
  - exists new. split; [exact Hreq |]. split; [exact Hall |].
    apply Hsent; discriminate.
  - exact Hfresh.
  - apply Hdistinct. apply NoDup_singleton.
Defined.

Lemma unblock_idempotent_witness :
  let first := unblockDomainTool (storing exampleEnv) exampleEnv
                 ["a.com"; "b.com"]
                 (exampleWorld (serverWith true ["@@||a.com^"])) in
  let second := unblockDomainTool (storing exampleEnv) exampleEnv
                  ["a.com"; "b.com"] first.2 in
  rules (user_rules_settings (settings (provider first.2)))
  = ["@@||a.com^"; "@@||b.com^"]
  /\ second.1
     = Returned {| success := true;
                   message := "All 2 domain(s) are already whitelisted";
                   rules_added := [];
                   already_whitelisted := ["a.com"; "b.com"] |}
  /\ length (requests second.2) = S (length (requests first.2)).
Proof.
  cbv zeta.
  destruct (unblockDomainTool (storing exampleEnv) exampleEnv
              ["a.com"; "b.com"]
              (exampleWorld (serverWith true ["@@||a.com^"])))
    as [[out1 | e] w1] eqn:Hfirst; [| vm_compute in Hfirst; discriminate].
  assert (Htok : currentAccessToken w1 <> "").
  { vm_compute in Hfirst. injection Hfirst as _ <-. discriminate. }
  destruct (unblock_idempotent (storing exampleEnv) exampleEnv id
              _ w1 _ out1 storing_serves storing_stores Hfirst Htok)
    as (_ & Hsecond & _).
  cbn [snd]. rewrite Hsecond. cbn [fst snd after_fetch requests].
  split; [| split].
  - vm_compute in Hfirst. now injection Hfirst as _ <-.
  - reflexivity.
  - rewrite length_app. cbn [length]. lia.
Defined.

Lemma unblock_partition_witness :
  exists out w',
    unblockDomainTool (storing exampleEnv) exampleEnv
      ["a.com"; "b.com"; "c.com"]
      (exampleWorld (serverWith true ["@@||b.com^"]))
    = (Returned out, w')
    /\ success out = true
    /\ already_whitelisted out = ["b.com"]
    /\ rules_added out = ["@@||a.com^"; "@@||c.com^"].
Proof.
  destruct (storing_read (serverWith true ["@@||b.com^"])) as (g & Hread).
  apply (unblock_partition (storing exampleEnv) exampleEnv _ _ g _
           ["a.com"; "b.com"; "c.com"] Hread).
  intros _. eexists _, _. split; [vm_compute; reflexivity | reflexivity].
Defined.

Lemma unblock_short_circuit_witness :
  (unblockDomainTool (storing exampleEnv) exampleEnv ["a.com"]
     (exampleWorld (serverWith true ["@@||a.com^"]))).1
  = Returned {| success := true;
                message := "All 1 domain(s) are already whitelisted";
                rules_added := [];
                already_whitelisted := ["a.com"] |}
  /\ Forall (fun r => ~ isPut r)
       (requests
          (unblockDomainTool (storing exampleEnv) exampleEnv ["a.com"]
             (exampleWorld (serverWith true ["@@||a.com^"]))).2).
Proof.
  destruct (storing_read (serverWith true ["@@||a.com^"])) as (g & Hread).
  destruct (unblock_short_circuit (storing exampleEnv) exampleEnv _ _ g _
              ["a.com"] Hread) as (Hrun & new & Hreq & Hno).
  { repeat constructor. }
  rewrite Hrun. cbn [fst snd]. split; [reflexivity |].
  rewrite Hreq. exact Hno.
Defined.

Lemma unblock_empty_input_witness :
  (unblockDomainTool (storing exampleEnv) exampleEnv []
     (exampleWorld (serverWith false ["||ads.example^"]))).1
  = Returned {| success := true;
                message := "All 0 domain(s) are already whitelisted";
                rules_added := [];
                already_whitelisted := [] |}
  /\ length
       (requests
          (unblockDomainTool (storing exampleEnv) exampleEnv []
             (exampleWorld (serverWith false ["||ads.example^"]))).2)
     = 1.
Proof.
  destruct (storing_read (serverWith false ["||ads.example^"])) as (g & Hread).
  destruct (unblock_empty_input (storing exampleEnv) exampleEnv _ _ g _ Hread)
    as (Hrun & _).
  rewrite Hrun. split; reflexivity.
Defined.

Lemma unblock_write_frame_witness :
  let w := exampleWorld (serverWith false ["||x^"; "||x^"]) in
  let w' := (unblockDomainTool (storing exampleEnv) exampleEnv
               ["b.com"; "a.com"] w).2 in
  exists new,
    requests w' = requests w ++ new
    /\ Forall (fun r => isPut r ->
                        url r = settingsUrl exampleEnv
                        /\ body (init r)
                           = Some (SettingsUpdate false
                                     ["||x^"; "||x^"; "@@||b.com^"; "@@||a.com^"]))
              new
    /\ Exists isPut new.
Proof.
  intros w w'.
  destruct (storing_read (serverWith false ["||x^"; "||x^"])) as (g & Hread).
  destruct (unblock_write_frame (storing exampleEnv) exampleEnv _ _ g _
              ["b.com"; "a.com"] Hread) as (new & Hreq & Hall & Hsent).
  exists new. split; [exact Hreq |]. split; [exact Hall |].
  apply Exists_exists. eexists. split.
  - apply Hsent; discriminate.
  - reflexivity.
Defined.

Lemma getQueryLog_filters_blocked_witness :
  exists out,
    getQueryLogTool scripted exampleEnv 10 (exampleWorld [pageServed])
    = (Returned out,
       after_fetch (exampleWorld [pageServed])
         (firstRequest (exampleWorld [pageServed])
            (queryLogUrl 1699999400000 1700000000000) noOptions) [])
    /\ total_queries out = 2
    /\ Forall2 summaryOf (take 1 (items examplePage)) (blocked_domains out).
Proof.
  apply (getQueryLog_filters_blocked scripted exampleEnv
           (exampleWorld [pageServed]) _ 10 pageServed examplePage);
    reflexivity.
Defined.

Lemma transport_header_precedence_witness :
  let w := exampleWorld [unavailable] in
  let w' := (callAdGuardAPI scripted exampleEnv "https://api.adguard-dns.io/x"
               callerOptions w).2 in
  exists h,
    sentHeaders w' = [Some (HeadersObject h)]
    /\ h !! "Authorization" = Some "Bearer tok1"
    /\ h !! "authorization" = Some "Basic xyz"
    /\ h !! "X-Trace" = Some "1"
    /\ h !! "Content-Type" = Some "application/json"
    /\ h !! "Accept" = None.
Proof.
  intros w w'.
  destruct (transport_header_precedence scripted exampleEnv w
              "https://api.adguard-dns.io/x" callerOptions)
    as (h1 & rest & Hreq & (Hauth & Hcaller & Hdefault) & _);
    [discriminate |].
  exists h1. fold w' in Hreq.
  assert (Hrest : rest = []).
  { apply (f_equal length) in Hreq. rewrite length_app in Hreq.
    vm_compute in Hreq. destruct rest; [reflexivity | discriminate]. }
  subst rest. unfold sentHeaders. rewrite Hreq. split; [reflexivity |].
  split; [exact Hauth |]. split; [| split; [| split]].
  - apply Hcaller; [discriminate | reflexivity].
  - apply Hcaller; [discriminate | reflexivity].
  - rewrite Hdefault; [reflexivity | discriminate | reflexivity].
  - rewrite Hdefault; [reflexivity | discriminate | reflexivity].
Defined.

(** C9 as stated fails, in three ways.  The headers of the request are not
    the merge of the headers the caller supplied with [Authorization]: a
    header supplied in a [Headers] instance is not in the request, and with
    no header supplied the request still has a [Content-Type].  And the
    token's value does not override every Authorization header of the caller:
    one spelled [authorization] is sent beside it. *)
Lemma transport_headers_not_the_callers_merge :
  let sent options :=
    sentHeaders
      (callAdGuardAPI scripted exampleEnv "https://api.adguard-dns.io/x"
         options (exampleWorld [unavailable])).2 in
  let claimed options (h : gmap string string) :=
    forall k,
      h !! k
      = (<[ "Authorization" := "Bearer tok1" ]>
           (list_to_map (suppliedHeaders (headers options))
              : gmap string string)) !! k in
  (exists h,
     sent instanceOptions = [Some (HeadersObject h)]
     /\ ("X-Trace", "1") ∈ suppliedHeaders (headers instanceOptions)
     /\ h !! "X-Trace" = None
     /\ ~ claimed instanceOptions h)
  /\ (exists h,
        sent noOptions = [Some (HeadersObject h)]
        /\ suppliedHeaders (headers noOptions) = []
        /\ h !! "Content-Type" = Some "application/json"
        /\ ~ claimed noOptions h)
  /\ (exists h,
        sent callerOptions = [Some (HeadersObject h)]
        /\ ("authorization", "Basic xyz")
             ∈ suppliedHeaders (headers callerOptions)
        /\ h !! "Authorization" = Some "Bearer tok1"
        /\ h !! "authorization" = Some "Basic xyz").
Proof.
  intros sent claimed. split; [| split].
  - eexists. split; [vm_compute; reflexivity |].
    split; [apply list_elem_of_here |]. split; [reflexivity |].
    intros H. specialize (H "X-Trace"). vm_compute in H. discriminate.
  - eexists. split; [vm_compute; reflexivity |].
    split; [reflexivity |]. split; [reflexivity |].
    intros H. specialize (H "Content-Type"). vm_compute in H. discriminate.
  - eexists. split; [vm_compute; reflexivity |].
    split; [| split; reflexivity].
    apply elem_of_map_to_list. reflexivity.
Defined.

(** ** Further properties of the transport *)

Section TransportFaults.

Context {Srv : Type}.
Variable network : Srv -> Request -> FetchOutcome * Srv.
Variable env : Env.

(** How a refresh ends, with what it leaves in store: thrown, the token
    untouched and at most the exchange sent; or returned, the exchange sent
    and its token stored. *)
Lemma refreshAccessToken_outcomes (w : World Srv) :
  (exists e w1,
     refreshAccessToken network env w = (Thrown e, w1)
     /\ currentAccessToken w1 = currentAccessToken w
     /\ (requests w1 = requests w
         \/ exists rt, requests w1 = requests w ++ [refreshRequest rt]))
  \/ (exists t w1 rt,
        refreshAccessToken network env w = (Returned t, w1)
        /\ requests w1 = requests w ++ [refreshRequest rt]
        /\ currentAccessToken w1 = t).
Proof.
  unfold refreshAccessToken.
  destruct (falsy (ADGUARD_REFRESH_TOKEN env)).
  { left. eexists _, _. split; [reflexivity |]. split; [reflexivity | now left]. }
  set (rt := default "" _). unfold bind, fetch.
  fold (refreshRequest rt). case_answer network.
  - destruct (negb (ok r)).
    { left. eexists _, _. split; [reflexivity |].
      split; [reflexivity | right; now exists rt]. }
    unfold json_TokenResponse.
    destruct (payload r) as [t | | |];
      try (left; eexists _, _; split; [reflexivity |];
           split; [reflexivity | right; now exists rt]).
    right. eexists _, _, rt. split; [reflexivity | now split].
  - left. eexists _, _. split; [reflexivity |].
    split; [reflexivity | right; now exists rt].
Qed.

(** X17. The refresher stores what it returns and nothing else: when it
    returns a token, that token is in store and one line was logged; when it
    throws, the token in store and the console are as they were. *)
Theorem refresh_stores_what_it_returns (w : World Srv) :
  let run := refreshAccessToken network env w in
  match run.1 with
  | Returned t =>
      currentAccessToken run.2 = t
      /\ console run.2
         = console w ++ ["AdGuard API token refreshed successfully"]
  | Thrown _ =>
      currentAccessToken run.2 = currentAccessToken w
      /\ console run.2 = console w
  end.
Proof.
  unfold refreshAccessToken.
  destruct (falsy (ADGUARD_REFRESH_TOKEN env)); [now split |].
  unfold bind, fetch. case_answer network; [| now split].
  destruct (negb (ok r)); [now split |].
  unfold json_TokenResponse. destruct (payload r); now split.
Qed.

(** X1. One call of the transport sends at most three requests, and none
    when no token is in store; the token in store is the one it started with
    unless all three were sent. *)
Theorem transport_bounded (w : World Srv) u options :
  let w' := (callAdGuardAPI network env u options w).2 in
  exists new,
    requests w' = requests w ++ new
    /\ length new <= 3
    /\ (currentAccessToken w = "" -> new = [])
    /\ (currentAccessToken w' <> currentAccessToken w -> length new = 3).
Proof.
  intros w'. subst w'.
  destruct (String.eqb_spec (currentAccessToken w) "") as [Htok | Htok].
  { rewrite (callAdGuardAPI_no_token _ _ _ _ _ Htok). exists [].
    cbn [snd length]. rewrite app_nil_r. repeat split; auto; try lia.
    intros H. now destruct H. }
  destruct (network (provider w) (firstRequest w u options))
    as [[r1 | reason] s1] eqn:Hnet.
  - destruct (Z.eq_dec (status r1) 401%Z) as [Hst | Hst].
    + rewrite (callAdGuardAPI_unauthorized _ _ _ _ _ _ _ Htok Hnet Hst).
      set (wA := Build_World _ _ _ _ _ _). unfold bind.
      destruct (refreshAccessToken_outcomes wA)
        as [(e & w1 & -> & Hkeep & Hreq) | (t & w1 & rt & -> & Hreq & _)].
      * cbn [snd]. rewrite Hkeep. cbn [wA currentAccessToken].
        destruct Hreq as [-> | [rt ->]]; cbn [wA requests].
        -- eexists. split; [reflexivity |]. cbn [length].
           repeat split; try lia; intros H; now destruct H.
        -- rewrite <- app_assoc. eexists. split; [reflexivity |].
           cbn [length app]. repeat split; try lia; intros H; now destruct H.
      * unfold fetch. case_answer network;
          cbn [snd after_fetch requests currentAccessToken];
          rewrite Hreq; cbn [wA requests]; rewrite <- !app_assoc;
          (eexists; split; [reflexivity |]); cbn [length app];
          repeat split; try lia; intros H; now destruct Htok.
    + rewrite (callAdGuardAPI_direct _ _ _ _ _ _ _ Htok Hnet Hst).
      eexists. split; [reflexivity |]. cbn [length snd after_fetch currentAccessToken].
      repeat split; try lia; intros H; now destruct H.
  - unfold callAdGuardAPI, bind, get_currentAccessToken.
    rewrite (token_set _ Htok), (fetch_rejected _ _ _ _ _ _ Hnet).
    eexists. split; [reflexivity |]. cbn [length snd after_fetch currentAccessToken].
    repeat split; try lia; intros H; now destruct H.
Qed.

(** X2. A 401 when no refresh token is configured: the call throws the
    configuration error of the refresher after its one request; no exchange
    is sent, nothing is retried, the token in store is unchanged. *)
Theorem transport_unauthorized_without_refresh_token
    (w : World Srv) u options r1 s1 :
  currentAccessToken w <> "" ->
  network (provider w) (firstRequest w u options) = (Responded r1, s1) ->
  status r1 = 401%Z ->
  falsy (ADGUARD_REFRESH_TOKEN env) = true ->
  callAdGuardAPI network env u options w
  = (Thrown (Error "ADGUARD_REFRESH_TOKEN environment variable is not set. Cannot refresh token."),
     {| currentAccessToken := currentAccessToken w; provider := s1;
        requests := requests w ++ [firstRequest w u options];
        console := console w ++ ["Token expired, refreshing..."];
        clock := clock w |}).
Proof.
  intros Htok Hnet Hst Hrt.
  rewrite (callAdGuardAPI_unauthorized _ _ _ _ _ _ _ Htok Hnet Hst).
  unfold bind, refreshAccessToken. now rewrite Hrt.
Qed.

(** X3. A rejected fetch is not retried: the call throws the rejection
    after its one request, without refresh, the token unchanged. *)
Theorem transport_fetch_rejected (w : World Srv) u options reason s1 :
  currentAccessToken w <> "" ->
  network (provider w) (firstRequest w u options) = (Rejected reason, s1) ->
  callAdGuardAPI network env u options w
  = (Thrown (FetchRejected reason),
     after_fetch w (firstRequest w u options) s1).
Proof.
  intros Htok Hnet. unfold callAdGuardAPI, bind, get_currentAccessToken.
  now rewrite (token_set _ Htok), (fetch_rejected _ _ _ _ _ _ Hnet).
Qed.

(** The world a successful refresh after a 401 leaves, before the retry. *)
Lemma callAdGuardAPI_refreshed (w : World Srv) u options r1 s1 rt r2 s2 t :
  currentAccessToken w <> "" ->
  network (provider w) (firstRequest w u options) = (Responded r1, s1) ->
  status r1 = 401%Z ->
  ADGUARD_REFRESH_TOKEN env = Some rt -> rt <> "" ->
  network s1 (refreshRequest rt) = (Responded r2, s2) ->
  ok r2 = true -> payload r2 = TokenJson t ->
  callAdGuardAPI network env u options w
  = fetch network u
      (retryWith (withAuthorization options (currentAccessToken w))
                 (access_token t))
      {| currentAccessToken := access_token t; provider := s2;
         requests := requests w
                      ++ [firstRequest w u options; refreshRequest rt];
         console := console w
                     ++ ["Token expired, refreshing...";
                         "AdGuard API token refreshed successfully"];
         clock := clock w |}.
Proof.
  intros Htok Hnet Hst Hrt Hne Hnet2 Hok Hbody.
  rewrite (callAdGuardAPI_unauthorized _ _ _ _ _ _ _ Htok Hnet Hst).
  set (wA := Build_World _ _ _ _ _ _). unfold bind.
  rewrite (refreshAccessToken_ok _ _ wA rt r2 s2 t Hrt Hne Hnet2 Hok Hbody).
  subst wA. cbn [currentAccessToken provider requests console clock].
  now rewrite <- !app_assoc.
Qed.

(** X4. A retry that is rejected after a successful refresh: the call
    throws the rejection, yet the new token stays in store. *)
Theorem transport_retry_rejected_keeps_new_token
    (w : World Srv) u options r1 s1 rt r2 s2 t reason s3 :
  currentAccessToken w <> "" ->
  network (provider w) (firstRequest w u options) = (Responded r1, s1) ->
  status r1 = 401%Z ->
  ADGUARD_REFRESH_TOKEN env = Some rt -> rt <> "" ->
  network s1 (refreshRequest rt) = (Responded r2, s2) ->
  ok r2 = true -> payload r2 = TokenJson t ->
  network s2 (retryRequest w u options (access_token t)) = (Rejected reason, s3) ->
  let run := callAdGuardAPI network env u options w in
  run.1 = Thrown (FetchRejected reason)
  /\ currentAccessToken run.2 = access_token t
  /\ requests run.2
     = requests w ++ [firstRequest w u options; refreshRequest rt;
                      retryRequest w u options (access_token t)].
Proof.
  intros Htok Hnet Hst Hrt Hne Hnet2 Hok Hbody Hnet3 run. subst run.
  rewrite (callAdGuardAPI_refreshed _ _ _ _ _ _ _ _ _ Htok Hnet Hst Hrt Hne
             Hnet2 Hok Hbody).
  unfold fetch. cbn [provider].
  fold (retryRequest w u options (access_token t)). rewrite Hnet3.
  cbn [fst snd after_fetch currentAccessToken requests].
  now rewrite <- app_assoc.
Qed.

(** X5. The token a refresh stored serves the next call: after a call that
    met a 401 and refreshed to a non-empty token [t], any further call sends
    first a request whose [Authorization] is [Bearer t]. *)
Theorem refreshed_token_used_by_next_call
    (w : World Srv) u options r1 s1 rt r2 s2 t u2 options2 :
  currentAccessToken w <> "" ->
  network (provider w) (firstRequest w u options) = (Responded r1, s1) ->
  status r1 = 401%Z ->
  ADGUARD_REFRESH_TOKEN env = Some rt -> rt <> "" ->
  network s1 (refreshRequest rt) = (Responded r2, s2) ->
  ok r2 = true -> payload r2 = TokenJson t ->
  access_token t <> "" ->
  let w1 := (callAdGuardAPI network env u options w).2 in
  exists h rest,
    requests (callAdGuardAPI network env u2 options2 w1).2
    = requests w1
        ++ {| url := u2;
              init := {| method := method options2;
                         headers := Some (HeadersObject h);
                         body := body options2 |} |} :: rest
    /\ h !! "Authorization" = Some ("Bearer " +:+ access_token t).
Proof.
  intros Htok Hnet Hst Hrt Hne Hnet2 Hok Hbody Ht w1.
  assert (Htok1 : currentAccessToken w1 = access_token t).
  { subst w1.
    rewrite (callAdGuardAPI_refreshed _ _ _ _ _ _ _ _ _ Htok Hnet Hst Hrt Hne
               Hnet2 Hok Hbody).
    unfold fetch. case_answer network; reflexivity. }
  destruct (callAdGuardAPI_sends_first network env w1 u2 options2)
    as [rest Hsent]; [now rewrite Htok1 |].
  eexists _, rest. split.
  - rewrite Hsent. unfold firstRequest, withAuthorization. reflexivity.
  - rewrite Htok1. apply lookup_insert_eq.
Qed.

End TransportFaults.

(** ** Further properties of the loop *)

(** X6. A domain is found whitelisted exactly when its own rule is among
    the rules: against the rules of the domains [ds], the lookup of the rule
    of [d] succeeds if and only if [d] is one of [ds]. *)
Theorem whitelist_lookup_exact (ds : list string) (d : string) :
  includes (whitelistRule <$> ds) (whitelistRule d) = true <-> d ∈ ds.
Proof.
  rewrite includes_elem_of, list_elem_of_fmap. split.
  - intros (d' & E & Hin). apply whitelistRule_inj in E. now subst d'.
  - intros Hin. now exists d.
Qed.

(** X7. The loop treats each domain on its own: run on a concatenated
    input, it yields the concatenation of what it yields on the parts. *)
Theorem classifyAll_app (cur ds1 ds2 : list string) :
  classifyAll cur (ds1 ++ ds2)
  = ((classifyAll cur ds1).1 ++ (classifyAll cur ds2).1,
     (classifyAll cur ds1).2 ++ (classifyAll cur ds2).2).
Proof.
  unfold classifyAll at 1. rewrite fold_left_app.
  fold (classifyAll cur ds1). rewrite classify_fold.
  now rewrite (classifyAll_spec cur ds2).
Qed.

(** X8. The loop depends on the current rules only as a set: two rule lists
    with the same members, in whatever order and multiplicity, classify
    every input alike. *)
Theorem classifyAll_same_rules (cur cur' domains : list string) :
  (forall r, r ∈ cur <-> r ∈ cur') ->
  classifyAll cur domains = classifyAll cur' domains.
Proof.
  intros Hsame. unfold classifyAll. generalize (@nil string, @nil string).
  induction domains as [| d domains IH]; intros acc; [reflexivity |].
  cbn [fold_left]. rewrite IH. f_equal. unfold classify.
  assert (E : includes cur (whitelistRule d) = includes cur' (whitelistRule d)).
  { destruct (includes cur' (whitelistRule d)) eqn:E'.
    - apply includes_elem_of, Hsame, includes_elem_of, E'.
    - apply includes_not_elem_of. rewrite Hsame.
      now apply includes_not_elem_of. }
  now rewrite E.
Qed.

(** The domains the message names: those not in [alreadyWhitelisted] are
    those whose rule was not found. *)
Lemma newDomains_absent (cur domains : list string) :
  List.filter (fun x => negb (includes (classifyAll cur domains).2 x)) domains
  = filter (fun x => whitelistRule x ∉ cur) domains.
Proof.
  rewrite classifyAll_spec. cbn [snd].
  set (present := filter (fun x => whitelistRule x ∈ cur) domains).
  assert (Hin : forall x, x ∈ domains ->
            (x ∈ present <-> whitelistRule x ∈ cur)).
  { intros x Hx. unfold present. rewrite list_elem_of_filter. tauto. }
  clearbody present. induction domains as [| d domains IH]; [reflexivity |].
  cbn [List.filter]. rewrite filter_cons.
  rewrite IH by (intros x Hx; apply Hin; now right).
  destruct (includes present d) eqn:E; cbn [negb].
  - apply includes_elem_of, Hin in E; [| left].
    rewrite decide_False; [reflexivity | intros Hn; now apply Hn].
  - apply includes_not_elem_of in E. rewrite Hin in E by left.
    now rewrite decide_True.
Qed.

(** Two predicates that agree on the members of a list filter it alike. *)
Lemma filter_agree {A} (P Q : A -> Prop) `{!forall x, Decision (P x)}
    `{!forall x, Decision (Q x)} (l : list A) :
  (forall x, x ∈ l -> (P x <-> Q x)) -> filter P l = filter Q l.
Proof.
  induction l as [| a l IH]; intros Hagree; [reflexivity |].
  rewrite !filter_cons, IH by (intros x Hx; apply Hagree; now right).
  destruct (decide (P a)) as [Hp | Hp].
  - rewrite decide_True; [reflexivity | apply Hagree; [left | exact Hp]].
  - rewrite decide_False; [reflexivity |].
    intros Hq. apply Hp, Hagree; [left | exact Hq].
Qed.

(** ** Further properties of the tools *)

Section ToolFaults.

Context {Srv : Type}.
Variable network : Srv -> Request -> FetchOutcome * Srv.
Variable env : Env.

(** X9. Configuration faults are raised before anything is sent.  Without a
    server id the mutator throws its own error, whatever the token; with a
    server id but no token both tools throw the token error; in each case the
    world, and so the request log, is as it was. *)
Theorem tools_raise_configuration_faults_first (w : World Srv) :
  (falsy (ADGUARD_DNS_SERVER_ID env) = true ->
   forall domains,
     unblockDomainTool network env domains w
     = (Thrown (Error "ADGUARD_DNS_SERVER_ID environment variable is not set"),
        w))
  /\ (currentAccessToken w = "" ->
      (falsy (ADGUARD_DNS_SERVER_ID env) = false ->
       forall domains,
         unblockDomainTool network env domains w
         = (Thrown (Error "ADGUARD_API_TOKEN environment variable is not set"),
            w))
      /\ (forall minutes,
            getQueryLogTool network env minutes w
            = (Thrown (Error "ADGUARD_API_TOKEN environment variable is not set"),
               w))).
Proof.
  split; [| intros Htok; split].
  - intros Hid domains. unfold unblockDomainTool. now rewrite Hid.
  - intros Hid domains. unfold unblockDomainTool, bind. rewrite Hid.
    now rewrite (callAdGuardAPI_no_token _ _ _ _ _ Htok).
  - intros minutes. unfold getQueryLogTool, bind, Date_now.
    now rewrite (callAdGuardAPI_no_token _ _ _ _ _ Htok).
Qed.

(** X10. Upstream failure of the log fetch: when the transport returns a
    response outside 200-299 (a 401 left after the retry included), the tool
    throws the API error carrying that status and status text, and reports
    no entry. *)
Theorem getQueryLog_upstream_error (w w1 : World Srv) minutes r :
  callAdGuardAPI network env
    (queryLogUrl (clock w - minutes * 60 * 1000) (clock w)) noOptions w
  = (Returned r, w1) ->
  ok r = false ->
  getQueryLogTool network env minutes w
  = (Thrown (Error ("AdGuard API error: " +:+ string_of_Z (status r)
                      +:+ " " +:+ statusText r)), w1).
Proof.
  intros Hcall Hok. unfold getQueryLogTool.
  unfold bind at 1, Date_now. unfold bind at 1. now rewrite Hcall, Hok.
Qed.

(** X11. The log fetch is read-only: whatever the network answers, every
    request it sends is either for an address of the query-log resource, with
    no method and no body, or the token exchange; so it never sends a PUT. *)
Theorem getQueryLog_read_only (w : World Srv) minutes :
  let w' := (getQueryLogTool network env minutes w).2 in
  exists new,
    requests w' = requests w ++ new
    /\ Forall (fun r =>
                 ((exists query,
                     url r = ADGUARD_API_BASE +:+ "/oapi/v1/query_log?" +:+ query)
                  /\ method (init r) = None /\ body (init r) = None)
                 \/ (url r = oauthTokenUrl /\ method (init r) = Some "POST"))
              new
    /\ Forall (fun r => ~ isPut r) new.
Proof.
  intros w'. subst w'.
  set (u := queryLogUrl (clock w - minutes * 60 * 1000) (clock w)).
  destruct (callAdGuardAPI_trace network env w u noOptions)
    as (new & Hnew & Hall).
  exists new. split; [| split].
  - unfold getQueryLogTool. unfold bind at 1, Date_now. unfold bind at 1.
    fold u. destruct (callAdGuardAPI network env u noOptions w) as [[r | e] w1];
      [| exact Hnew].
    destruct (negb (ok r)); [exact Hnew |].
    unfold bind, json_QueryLogResponse. destruct (payload r); exact Hnew.
  - eapply Forall_impl; [exact Hall |].
    intros r [(Hu & Hm & Hb) | Hx]; [left | now right].
    split; [| now split]. rewrite Hu. eexists. reflexivity.
  - eapply Forall_impl; [exact Hall |].
    intros r [(_ & Hm & _) | (_ & Hm)]; unfold isPut; rewrite Hm; discriminate.
Qed.

(** X12. The blocked entries are a part of the page: on a successful fetch
    the tool reports at most [total_queries] blocked domains, and exactly
    that many when every entry of the page is blocked. *)
Theorem getQueryLog_counts (w w1 : World Srv) minutes r q :
  callAdGuardAPI network env
    (queryLogUrl (clock w - minutes * 60 * 1000) (clock w)) noOptions w
  = (Returned r, w1) ->
  ok r = true ->
  payload r = QueryLogJson q ->
  exists out,
    getQueryLogTool network env minutes w = (Returned out, w1)
    /\ length (blocked_domains out) <= total_queries out
    /\ (Forall blockedEntry (items q) ->
        length (blocked_domains out) = total_queries out).
Proof.
  intros Hcall Hok Hbody. unfold getQueryLogTool.
  unfold bind at 1, Date_now. unfold bind at 1. rewrite Hcall, Hok.
  cbn [negb]. unfold bind, json_QueryLogResponse. rewrite Hbody.
  eexists. split; [reflexivity |].
  cbn [blocked_domains total_queries]. rewrite length_map, filter_isBlocked.
  split; [apply length_filter |].
  intros Hall. f_equal. induction Hall as [| item l Hitem _ IH]; [reflexivity |].
  rewrite filter_cons, decide_True by exact Hitem. now rewrite IH.
Qed.

(** X13. Failure of the configuration read: when the transport returns a
    response outside 200-299 for the server object, the mutator throws the
    read error carrying its status and status text, having sent no PUT. *)
Theorem unblock_read_failure (w w1 : World Srv) g domains :
  falsy (ADGUARD_DNS_SERVER_ID env) = false ->
  callAdGuardAPI network env (dnsServerUrl env) noOptions w = (Returned g, w1) ->
  ok g = false ->
  unblockDomainTool network env domains w
  = (Thrown (Error ("Failed to get DNS server: " +:+ string_of_Z (status g)
                      +:+ " " +:+ statusText g)), w1)
  /\ exists new,
       requests w1 = requests w ++ new /\ Forall (fun r => ~ isPut r) new.
Proof.
  intros Hid Hread Hok. split.
  - unfold unblockDomainTool. rewrite Hid. unfold bind at 1.
    now rewrite Hread, Hok.
  - destruct (callAdGuardAPI_trace network env w (dnsServerUrl env) noOptions)
      as (new & Hnew & Hall).
    rewrite Hread in Hnew. exists new. split; [exact Hnew |].
    eapply Forall_impl; [exact Hall |].
    intros r [(_ & Hm & _) | (_ & Hm)]; unfold isPut; rewrite Hm; discriminate.
Qed.

(** X14. Failure of the write: when some input domain is not whitelisted
    and the transport returns a response outside 200-299 for the PUT, the
    mutator throws the write error carrying its status and status text; no
    result is returned, also not for the domains found whitelisted. *)
Theorem unblock_write_failure (w w1 w2 : World Srv) g d domains p :
  readReturns network env w g w1 d ->
  let cur := rules (user_rules_settings (settings d)) in
  let absent := filter (fun x => whitelistRule x ∉ cur) domains in
  absent <> [] ->
  callAdGuardAPI network env (settingsUrl env)
    (putInit (enabled (user_rules_settings (settings d)))
             (cur ++ (whitelistRule <$> absent))) w1
  = (Returned p, w2) ->
  ok p = false ->
  unblockDomainTool network env domains w
  = (Thrown (Error ("Failed to update settings: " +:+ string_of_Z (status p)
                      +:+ " " +:+ statusText p)), w2).
Proof.
  intros Hread cur absent Hne Hput Hok.
  rewrite (unblock_after_read _ _ _ _ _ _ _ Hread). fold cur.
  rewrite classifyAll_spec. cbn [fst snd]. fold absent.
  destruct absent as [| x absent']; [now destruct Hne |].
  cbn [fmap list_fmap length Nat.eqb]. cbn [fmap list_fmap] in Hput.
  now rewrite Hput, Hok.
Qed.

(** X15. The message of a write names what was added: when the read
    returns the current rules, some input domain is not whitelisted and the
    PUT is acknowledged, the message gives the number of rules added and the
    domains they are for, in input order and separated by a comma and a
    space. *)
Theorem unblock_message_names_added_domains
    (w w1 w2 : World Srv) g d domains p :
  readReturns network env w g w1 d ->
  let cur := rules (user_rules_settings (settings d)) in
  let absent := filter (fun x => whitelistRule x ∉ cur) domains in
  absent <> [] ->
  callAdGuardAPI network env (settingsUrl env)
    (putInit (enabled (user_rules_settings (settings d)))
             (cur ++ (whitelistRule <$> absent))) w1
  = (Returned p, w2) ->
  ok p = true ->
  unblockDomainTool network env domains w
  = (Returned
       {| success := true;
          message := "Successfully added " +:+ string_of_nat (length absent)
                       +:+ " whitelist rule(s) for: " +:+ join ", " absent;
          rules_added := whitelistRule <$> absent;
          already_whitelisted :=
            filter (fun x => whitelistRule x ∈ cur) domains |}, w2).
Proof.
  intros Hread cur absent Hne Hput Hok.
  rewrite (unblock_after_read _ _ _ _ _ _ _ Hread). fold cur.
  rewrite (newDomains_absent cur domains).
  rewrite classifyAll_spec. cbn [fst snd]. fold absent.
  rewrite length_fmap.
  destruct absent as [| x absent'] eqn:E; [now destruct Hne |].
  cbn [length Nat.eqb]. now rewrite Hput, Hok.
Qed.

(** What a returned result was computed from. *)
Lemma unblock_returned_inv (w w' : World Srv) domains out :
  unblockDomainTool network env domains w = (Returned out, w') ->
  exists cur,
    success out = true
    /\ rules_added out = (classifyAll cur domains).1
    /\ already_whitelisted out = (classifyAll cur domains).2.
Proof.
  unfold unblockDomainTool.
  destruct (falsy (ADGUARD_DNS_SERVER_ID env)); [discriminate |].
  unfold bind at 1.
  destruct (callAdGuardAPI network env (dnsServerUrl env) noOptions w)
    as [[g | e] w1]; [| discriminate].
  destruct (negb (ok g)); [discriminate |].
  unfold bind at 1, json_DNSServer.
  destruct (payload g) as [| | d |]; try discriminate. unfold ret at 1.
  set (cur := rules (user_rules_settings (settings d))).
  destruct (length (classifyAll cur domains).1 =? 0)%nat eqn:Elen.
  - intros [= <- <-]. exists cur. cbn [success rules_added already_whitelisted].
    apply Nat.eqb_eq, length_zero_iff_nil in Elen. now rewrite Elen.
  - unfold bind.
    destruct (callAdGuardAPI network env (settingsUrl env) _ w1)
      as [[p | e] w2]; [| discriminate].
    destruct (negb (ok p)); [discriminate |].
    intros [= <- <-]. now exists cur.
Qed.

(** X16. Every input domain is accounted for once: in a result the mutator
    returns, [success] is true, the rules added are the rules of the input
    domains not reported as already whitelisted, in input order, every
    domain reported is an input domain, and the two lists together are as
    long as the input. *)
Theorem unblock_accounts_for_every_domain (w w' : World Srv) domains out :
  unblockDomainTool network env domains w = (Returned out, w') ->
  success out = true
  /\ rules_added out
     = (whitelistRule <$> filter (fun x => x ∉ already_whitelisted out) domains)
  /\ Forall (fun x => x ∈ domains) (already_whitelisted out)
  /\ length (rules_added out) + length (already_whitelisted out)
     = length domains.
Proof.
  intros Hrun.
  destruct (unblock_returned_inv _ _ _ _ Hrun) as (cur & Hs & Hr & Ha).
  rewrite Hr, Ha, classifyAll_spec. cbn [fst snd].
  split; [exact Hs |]. split; [| split].
  - f_equal. apply filter_agree. intros x Hx.
    rewrite list_elem_of_filter. tauto.
  - apply Forall_forall. intros x Hx. now apply list_elem_of_filter in Hx.
  - rewrite length_fmap. clear.
    induction domains as [| x l IH]; [reflexivity |].
    rewrite !filter_cons.
    destruct (decide (whitelistRule x ∈ cur)) as [Hc | Hc].
    + rewrite decide_False by (intros Hn; now apply Hn).
      cbn [length]. lia.
    + rewrite decide_True by exact Hc. cbn [length]. lia.
Qed.

End ToolFaults.

(** ** The further properties at work on concrete runs *)

Lemma transport_unauthorized_without_refresh_token_witness :
  let run := callAdGuardAPI scripted envWithoutRefresh
               "https://api.adguard-dns.io/x" noOptions
               (exampleWorld [unauthorized; tokenGranted; unavailable]) in
  run.1 = Thrown (Error "ADGUARD_REFRESH_TOKEN environment variable is not set. Cannot refresh token.")
  /\ length (requests run.2) = 1
  /\ provider run.2 = [tokenGranted; unavailable].
Proof.
  cbv zeta.
  rewrite (transport_unauthorized_without_refresh_token scripted
             envWithoutRefresh
             (exampleWorld [unauthorized; tokenGranted; unavailable])
             "https://api.adguard-dns.io/x" noOptions unauthorized
             [tokenGranted; unavailable]
             ltac:(discriminate) eq_refl eq_refl eq_refl).
  repeat split.
Defined.

Lemma transport_fetch_rejected_witness :
  let run := callAdGuardAPI scripted exampleEnv
               "https://api.adguard-dns.io/x" noOptions
               (exampleWorld ([] : list Response)) in
  run.1 = Thrown (FetchRejected "fetch failed")
  /\ length (requests run.2) = 1
  /\ currentAccessToken run.2 = "tok1".
Proof.
  cbv zeta.
  rewrite (transport_fetch_rejected scripted exampleEnv
             (exampleWorld ([] : list Response))
             "https://api.adguard-dns.io/x" noOptions "fetch failed" []
             ltac:(discriminate) eq_refl).
  repeat split.
Defined.

Lemma transport_retry_rejected_keeps_new_token_witness :
  let run := callAdGuardAPI scripted exampleEnv
               "https://api.adguard-dns.io/x" noOptions
               (exampleWorld [unauthorized; tokenGranted]) in
  run.1 = Thrown (FetchRejected "fetch failed")
  /\ currentAccessToken run.2 = "tok2"
  /\ length (requests run.2) = 3.
Proof.
  destruct (transport_retry_rejected_keeps_new_token scripted exampleEnv
              (exampleWorld [unauthorized; tokenGranted])
              "https://api.adguard-dns.io/x" noOptions unauthorized
              [tokenGranted] "refresh1" tokenGranted [] grantedToken
              "fetch failed" []
              ltac:(discriminate) eq_refl eq_refl eq_refl ltac:(discriminate)
              eq_refl eq_refl eq_refl eq_refl) as (H1 & H2 & H3).
  cbv zeta. rewrite H1, H2, H3. repeat split.
Defined.

Lemma refreshed_token_used_by_next_call_witness :
  let w1 := (callAdGuardAPI scripted exampleEnv "https://api.adguard-dns.io/x"
               noOptions
               (exampleWorld [unauthorized; tokenGranted; unavailable;
                              pageServed])).2 in
  exists h rest,
    requests (callAdGuardAPI scripted exampleEnv
                "https://api.adguard-dns.io/y" callerOptions w1).2
    = requests w1
        ++ {| url := "https://api.adguard-dns.io/y";
              init := {| method := None; headers := Some (HeadersObject h);
                         body := None |} |}
           :: rest
    /\ h !! "Authorization" = Some "Bearer tok2".
Proof.
  apply (refreshed_token_used_by_next_call scripted exampleEnv
           (exampleWorld [unauthorized; tokenGranted; unavailable; pageServed])
           "https://api.adguard-dns.io/x" noOptions unauthorized
           [tokenGranted; unavailable; pageServed] "refresh1" tokenGranted
           [unavailable; pageServed] grantedToken
           "https://api.adguard-dns.io/y" callerOptions);
    try reflexivity; discriminate.
Defined.

Lemma classifyAll_same_rules_witness :
  classifyAll ["@@||a.com^"; "||x^"; "@@||a.com^"] ["b.com"; "a.com"]
  = classifyAll ["||x^"; "@@||a.com^"] ["b.com"; "a.com"].
Proof.
  apply classifyAll_same_rules. intros r.
  rewrite !elem_of_cons. tauto.
Defined.

Lemma tools_raise_configuration_faults_first_witness :
  unblockDomainTool scripted envWithoutServer ["a.com"]
    (tokenlessWorld [unavailable])
  = (Thrown (Error "ADGUARD_DNS_SERVER_ID environment variable is not set"),
     tokenlessWorld [unavailable])
  /\ unblockDomainTool scripted exampleEnv ["a.com"]
       (tokenlessWorld [unavailable])
     = (Thrown (Error "ADGUARD_API_TOKEN environment variable is not set"),
        tokenlessWorld [unavailable])
  /\ getQueryLogTool scripted exampleEnv 10 (tokenlessWorld [unavailable])
     = (Thrown (Error "ADGUARD_API_TOKEN environment variable is not set"),
        tokenlessWorld [unavailable]).
Proof.
  destruct (tools_raise_configuration_faults_first scripted envWithoutServer
              (tokenlessWorld [unavailable])) as [Hid _].
  destruct (tools_raise_configuration_faults_first scripted exampleEnv
              (tokenlessWorld [unavailable])) as [_ Htok].
  destruct (Htok eq_refl) as [Hunblock Hlog].
  split; [exact (Hid eq_refl _) |].
  split; [exact (Hunblock eq_refl _) | exact (Hlog _)].
Defined.

Lemma getQueryLog_upstream_error_witness :
  (getQueryLogTool scripted exampleEnv 10 (exampleWorld [unavailable])).1
  = Thrown (Error "AdGuard API error: 503 Service Unavailable").
Proof.
  erewrite (getQueryLog_upstream_error scripted exampleEnv
              (exampleWorld [unavailable]) _ 10 unavailable);
    [reflexivity | vm_compute; reflexivity | reflexivity].
Defined.

Lemma getQueryLog_counts_witness :
  exists out,
    getQueryLogTool scripted exampleEnv 10 (exampleWorld [pageServed])
    = (Returned out,
       after_fetch (exampleWorld [pageServed])
         (firstRequest (exampleWorld [pageServed])
            (queryLogUrl 1699999400000 1700000000000) noOptions) [])
    /\ length (blocked_domains out) <= total_queries out.
Proof.
  destruct (getQueryLog_counts scripted exampleEnv
              (exampleWorld [pageServed])
              (after_fetch (exampleWorld [pageServed])
                 (firstRequest (exampleWorld [pageServed])
                    (queryLogUrl 1699999400000 1700000000000) noOptions) [])
              10 pageServed examplePage
              eq_refl eq_refl eq_refl) as (out & Hrun & Hle & _).
  exists out. split; [exact Hrun | exact Hle].
Defined.

Lemma unblock_read_failure_witness :
  (unblockDomainTool scripted exampleEnv ["a.com"]
     (exampleWorld [unavailable])).1
  = Thrown (Error "Failed to get DNS server: 503 Service Unavailable").
Proof.
  destruct (unblock_read_failure scripted exampleEnv
              (exampleWorld [unavailable])
              (after_fetch (exampleWorld [unavailable])
                 (firstRequest (exampleWorld [unavailable])
                    (dnsServerUrl exampleEnv) noOptions) [])
              unavailable ["a.com"] eq_refl eq_refl eq_refl) as [Hrun _].
  now rewrite Hrun.
Defined.

Lemma unblock_write_failure_witness :
  (unblockDomainTool scripted exampleEnv ["a.com"; "b.com"]
     (exampleWorld [serverServed (serverWith true ["@@||a.com^"]);
                    badRequest])).1
  = Thrown (Error "Failed to update settings: 400 Bad Request").
Proof.
  erewrite (unblock_write_failure scripted exampleEnv
              (exampleWorld [serverServed (serverWith true ["@@||a.com^"]);
                             badRequest])
              _ _ (serverServed (serverWith true ["@@||a.com^"]))
              (serverWith true ["@@||a.com^"]) ["a.com"; "b.com"] badRequest).
  - reflexivity.
  - split; [reflexivity |]. split; [vm_compute; reflexivity |].
    split; reflexivity.
  - discriminate.
  - vm_compute. reflexivity.
  - reflexivity.
Defined.

Lemma unblock_message_names_added_domains_witness :
  (unblockDomainTool (storing exampleEnv) exampleEnv
     ["c.com"; "a.com"; "b.com"]
     (exampleWorld (serverWith true ["@@||a.com^"]))).1
  = Returned
      {| success := true;
         message := "Successfully added 2 whitelist rule(s) for: c.com, b.com";
         rules_added := ["@@||c.com^"; "@@||b.com^"];
         already_whitelisted := ["a.com"] |}.
Proof.
  destruct (storing_read (serverWith true ["@@||a.com^"])) as (g & Hread).
  erewrite (unblock_message_names_added_domains (storing exampleEnv)
              exampleEnv _ _ _ g _ ["c.com"; "a.com"; "b.com"] _ Hread).
  - reflexivity.
  - discriminate.
  - vm_compute. reflexivity.
  - reflexivity.
Defined.

Lemma unblock_accounts_for_every_domain_witness :
  exists out w',
    unblockDomainTool (storing exampleEnv) exampleEnv
      ["c.com"; "a.com"; "c.com"]
      (exampleWorld (serverWith true ["@@||a.com^"]))
    = (Returned out, w')
    /\ length (rules_added out) + length (already_whitelisted out) = 3.
Proof.
  destruct (unblockDomainTool (storing exampleEnv) exampleEnv
              ["c.com"; "a.com"; "c.com"]
              (exampleWorld (serverWith true ["@@||a.com^"])))
    as [[out | e] w'] eqn:Hrun; [| vm_compute in Hrun; discriminate].
  exists out, w'. split; [reflexivity |].
  now destruct (unblock_accounts_for_every_domain _ _ _ _ _ _ Hrun)
    as (_ & _ & _ & Hlen).
Defined.
